(** * Multipart-upload helper and background run manager

    A shallow embedding of [libs/io/s3api/s3_multipart_ops.py] (class
    [S3MultiParts]) and [libs/di/di_run_man.py] (classes [ASyncIO] and
    [RunDataCheckManager]), with the properties of the design document
    stated over it.

    Python exceptions are the [Raise] results of a state-and-error monad;
    the storage client, the uploader and the integrity verifier are
    external collaborators and enter as section variables. *)

From Stdlib Require Import ZArith QArith Lia.
From Stdlib.Init Require Import Byte.
From stdpp Require Import base option list strings gmap.
From Equations Require Import Equations.
From Equations.Prop Require Import Logic.

Local Open Scope string_scope.
Local Open Scope list_scope.
Local Open Scope Z_scope.

(** ** Python values, exceptions and results *)

Module Py.

(** The values that travel through keyword arguments and response
    dictionaries. *)
Inductive pyval : Type :=
| PyNone
| PyInt (z : Z)
| PyStr (s : string)
| PyBytes (b : list byte).

(** Why binding the arguments of a call failed. *)
Inductive type_error : Type :=
| TooManyPositional (fname : string) (given : nat)
| UnexpectedKeyword (fname key : string)
| MultipleValues (fname key : string)
| MissingArguments (fname : string) (names : list string).

(** The exceptions the two modules can raise or let through.  [IOError]
    carries its constructor arguments; [ClientError] stands for whatever
    the storage client raises; [Foreign] for a failure of another
    collaborator (uploader, verifier). *)
Inductive exn : Type :=
| IOError (args : list pyval)
| ZeroDivisionError
| ValueError (msg : string)
| KeyError (key : string)
| TypeError (why : type_error)
| AttributeError (msg : string)
| RuntimeError (msg : string)
| ClientError (code : string)
| Foreign (what : string).

Inductive result (A : Type) : Type :=
| Ok (a : A)
| Raise (e : exn).
Arguments Ok {A} a.
Arguments Raise {A} e.

(** [len(x)] of a bytes object. *)
Definition len {A} (l : list A) : Z := Z.of_nat (length l).

(** The classes of the exceptions: Python's built-in ones that matter here,
    with [OSError] and all its subclasses, and botocore's [ClientError]. *)
Inductive pyclass : Type :=
| cls_BaseException | cls_Exception
| cls_ArithmeticError | cls_ZeroDivisionError
| cls_LookupError | cls_KeyError
| cls_ValueError | cls_TypeError | cls_AttributeError | cls_RuntimeError
| cls_OSError
| cls_BlockingIOError | cls_ChildProcessError | cls_ConnectionError
| cls_BrokenPipeError | cls_ConnectionAbortedError
| cls_ConnectionRefusedError | cls_ConnectionResetError
| cls_FileExistsError | cls_FileNotFoundError | cls_InterruptedError
| cls_IsADirectoryError | cls_NotADirectoryError | cls_PermissionError
| cls_ProcessLookupError | cls_TimeoutError
| cls_ClientError.

#[export] Instance pyclass_eq_dec : EqDecision pyclass.
Proof. solve_decision. Defined.

(** The base class of a class. *)
Definition parent (k : pyclass) : option pyclass :=
  match k with
  | cls_BaseException => None
  | cls_Exception => Some cls_BaseException
  | cls_ZeroDivisionError => Some cls_ArithmeticError
  | cls_KeyError => Some cls_LookupError
  | cls_BrokenPipeError | cls_ConnectionAbortedError
  | cls_ConnectionRefusedError | cls_ConnectionResetError => Some cls_ConnectionError
  | cls_BlockingIOError | cls_ChildProcessError | cls_ConnectionError
  | cls_FileExistsError | cls_FileNotFoundError | cls_InterruptedError
  | cls_IsADirectoryError | cls_NotADirectoryError | cls_PermissionError
  | cls_ProcessLookupError | cls_TimeoutError => Some cls_OSError
  | _ => Some cls_Exception
  end.

(** A class and its base classes, nearest first; no chain is longer than
    five classes. *)
Fixpoint bases (depth : nat) (k : pyclass) : list pyclass :=
  k :: match depth, parent k with
       | S depth', Some k' => bases depth' k'
       | _, _ => []
       end.

(** [issubclass(k, c)]. *)
Definition issubclass (k c : pyclass) : bool := bool_decide (c ∈ bases 4 k).

(** The subclass [OSError(errno, strerror, ...)] turns into, by its error
    number (the numbers of Linux). *)
Definition errno_class (errno : Z) : pyclass :=
  if decide (errno = 1 ∨ errno = 13) then cls_PermissionError
  else if decide (errno = 2) then cls_FileNotFoundError
  else if decide (errno = 3) then cls_ProcessLookupError
  else if decide (errno = 4) then cls_InterruptedError
  else if decide (errno = 10) then cls_ChildProcessError
  else if decide (errno = 11 ∨ errno = 114 ∨ errno = 115) then cls_BlockingIOError
  else if decide (errno = 17) then cls_FileExistsError
  else if decide (errno = 20) then cls_NotADirectoryError
  else if decide (errno = 21) then cls_IsADirectoryError
  else if decide (errno = 32 ∨ errno = 108) then cls_BrokenPipeError
  else if decide (errno = 103) then cls_ConnectionAbortedError
  else if decide (errno = 104) then cls_ConnectionResetError
  else if decide (errno = 110) then cls_TimeoutError
  else if decide (errno = 111) then cls_ConnectionRefusedError
  else cls_OSError.

(** The class of the object that a call of [IOError] on [args] makes.  [IOError] is
    [OSError] under its old name; called with two to five arguments of
    which the first is an integer, [OSError] makes an instance of the
    subclass of that error number, and a plain [OSError] otherwise. *)
Definition OSError_class (args : list pyval) : pyclass :=
  match args with
  | PyInt errno :: _ :: rest =>
      if decide (length rest ≤ 3)%nat then errno_class errno else cls_OSError
  | _ => cls_OSError
  end.

(** The class of an exception; [None] for the exception of a collaborator,
    whose class is its own and not known here. *)
Definition class_of (e : exn) : option pyclass :=
  match e with
  | IOError args => Some (OSError_class args)
  | ZeroDivisionError => Some cls_ZeroDivisionError
  | ValueError _ => Some cls_ValueError
  | KeyError _ => Some cls_KeyError
  | TypeError _ => Some cls_TypeError
  | AttributeError _ => Some cls_AttributeError
  | RuntimeError _ => Some cls_RuntimeError
  | ClientError _ => Some cls_ClientError
  | Foreign _ => None
  end.

(** [isinstance(e, c)], where the class of [e] is known. *)
Definition isinstance (e : exn) (c : pyclass) : option bool :=
  k ← class_of e; Some (issubclass k c).

End Py.
Export Py.

(** ** libs/io/s3api/s3_multipart_ops.py *)

Module S3.

(** A response of the storage client: a dictionary. *)
Abbreviation response := (gmap string pyval).

(** One entry [{"PartNumber": i, "ETag": part["ETag"]}] of the part list. *)
Record part : Type := Part { PartNumber : Z; ETag : pyval }.

(** The request methods of [self.s3_client] this class uses, each with the
    keyword arguments it is given. *)
Inductive s3_call : Type :=
| CreateMultipartUpload (Bucket Key : string)
| UploadPart (Body : list byte) (Bucket Key : string) (UploadId PartNumber : pyval)
| ListParts (Bucket Key UploadId : string)
| CompleteMultipartUpload (Bucket Key UploadId : string) (Parts : list part)
| ListMultipartUploads (Bucket : string)
| AbortMultipartUpload (Bucket Key UploadId : string)
| UploadPartCopy (Bucket Key : string) (UploadId PartNumber : pyval) (CopySource : string).

Inductive logger_id : Type := ModuleLogger | RootLogger.
Inductive level : Type := DEBUG | INFO.

(** What a logging call is given. *)
Inductive log_msg : Type :=
| LogText (s : string)
| LogResponse (fmt : string) (r : response)
| LogDataLen (n : Z)
| LogProgress (uploaded total : Z) (percent : Q)
| LogParts (parts : list part).

(** The observable steps, in program order. *)
Inductive event : Type :=
| ECall (c : s3_call)
| ELog (lg : logger_id) (lv : level) (m : log_msg)
| EOpen (path : string)
| EClose (path : string).

(** The requests of a trace, in order. *)
Fixpoint calls_of (tr : list event) : list s3_call :=
  match tr with
  | [] => []
  | ECall c :: tr' => c :: calls_of tr'
  | _ :: tr' => calls_of tr'
  end.

(** The progress observations of a trace, in order. *)
Fixpoint progress_of (tr : list event) : list (Z * Z * Q) :=
  match tr with
  | [] => []
  | ELog _ _ (LogProgress u t p) :: tr' => (u, t, p) :: progress_of tr'
  | _ :: tr' => progress_of tr'
  end.

(** The part number a request uploads, and the bytes it carries. *)
Definition part_number_of_call (c : s3_call) : option pyval :=
  match c with
  | UploadPart _ _ _ _ n => Some n
  | UploadPartCopy _ _ _ n _ => Some n
  | _ => None
  end.

Definition body_of_call (c : s3_call) : option (list byte) :=
  match c with
  | UploadPart body _ _ _ _ => Some body
  | _ => None
  end.

(** The chunks a trace has uploaded, in order. *)
Definition bodies_of (tr : list event) : list (list byte) :=
  omap body_of_call (calls_of tr).

(** The openings and closings of files in a trace, in order. *)
Fixpoint file_events (tr : list event) : list event :=
  match tr with
  | [] => []
  | EOpen path :: tr' => EOpen path :: file_events tr'
  | EClose path :: tr' => EClose path :: file_events tr'
  | _ :: tr' => file_events tr'
  end.

(** The running totals of [sizes] on top of [start]. *)
Fixpoint running_totals (start : Z) (sizes : list Z) : list Z :=
  match sizes with
  | [] => []
  | n :: sizes' => (start + n) :: running_totals (start + n) sizes'
  end.

(** Request [c] uploads a part of the upload [mpu_id] of [key] in [bucket]. *)
Definition is_upload_to (bucket key : string) (mpu_id : pyval) (c : s3_call) : Prop :=
  ∃ body n, c = UploadPart body bucket key mpu_id (PyInt n).

(** [file_pointer.read(n)] on a buffered binary reader whose unread content
    is [unread]: the chunk and what is left.  [n = -1] reads to the end,
    [n < -1] is refused, [n = 0] reads nothing. *)
Definition file_read (n : Z) (unread : list byte) : result (list byte * list byte) :=
  if decide (n < -1) then Raise (ValueError "read length must be non-negative or -1")
  else if decide (n = -1) then Ok (unread, [])
  else Ok (take (Z.to_nat n) unread, drop (Z.to_nat n) unread).

Lemma file_read_shrinks n unread b data rest :
  file_read n unread = Ok (b :: data, rest) → (length rest < length unread)%nat.
Proof.
  unfold file_read. intros Hread.
  destruct (decide (n < -1)); [discriminate|].
  destruct (decide (n = -1)); injection Hread as Hdata Hrest; subst rest.
  - subst unread. simpl. lia.
  - destruct (Z.to_nat n) as [|k]; [discriminate|].
    destruct unread as [|x unread]; [discriminate|].
    rewrite length_drop. simpl. lia.
Qed.

(** Modelled from the spec: [cal_percent] of [commons.utils.system_utils]
    is imported but not part of the sources at hand.  The design document
    gives [percent(uploadedBytes, totalBytes)] as a pure function of the two
    counts with a division-by-zero risk at [totalBytes == 0]; it is taken
    here as the exact ratio times one hundred. *)
Definition cal_percent (num1 num2 : Z) : result Q :=
  if decide (num2 = 0) then Raise ZeroDivisionError
  else Ok (inject_Z num1 / inject_Z num2 * 100)%Q.

Section Client.

(** The storage client: its state and how it answers a request. *)
Context {client_state : Type}.
Variable s3_client : s3_call → client_state → result response * client_state.

(** The local file system (path to content), the client and the trace. *)
Record world : Type := World {
  w_fs : gmap string (list byte);
  w_client : client_state;
  w_trace : list event
}.

Definition M (A : Type) : Type := world → result A * world.

#[export] Instance M_ret : MRet M := fun A a w => (Ok a, w).
#[export] Instance M_throw : MThrow exn M := fun A e w => (Raise e, w).
#[export] Instance M_bind : MBind M := fun A B k m w =>
  match m w with
  | (Ok a, w') => k a w'
  | (Raise e, w') => (Raise e, w')
  end.

(** A pure computation that may raise. *)
Definition lift {A} (r : result A) : M A := fun w => (r, w).

Definition emit (e : event) (w : world) : world :=
  {| w_fs := w_fs w; w_client := w_client w; w_trace := w_trace w ++ [e] |}.

Definition log (lg : logger_id) (lv : level) (m : log_msg) : M unit :=
  fun w => (Ok tt, emit (ELog lg lv m) w).

(** One request through [self.s3_client]. *)
Definition request (c : s3_call) : M response := fun w =>
  let '(r, st) := s3_client c (w_client w) in
  (r, {| w_fs := w_fs w; w_client := st; w_trace := w_trace w ++ [ECall c] |}).

(** [kwargs.get(key)]: the value, or [None] when the key is absent. *)
Definition kwargs_get (kwargs : gmap string pyval) (key : string) : pyval :=
  default PyNone (kwargs !! key).

(** [response[key]]. *)
Definition getitem (r : response) (key : string) : M pyval :=
  match r !! key with
  | Some v => mret v
  | None => mthrow (KeyError key)
  end.

Definition create_multipart_upload (bucket_name obj_name : string) : M response :=
  response ← request (CreateMultipartUpload bucket_name obj_name);
  log ModuleLogger DEBUG (LogResponse "Response: %s" response);;
  mret response.

Definition upload_part (body : list byte) (bucket_name object_name : string)
    (kwargs : gmap string pyval) : M response :=
  let upload_id := kwargs_get kwargs "upload_id" in
  let part_number := kwargs_get kwargs "part_number" in
  response ← request (UploadPart body bucket_name object_name upload_id part_number);
  log RootLogger DEBUG (LogResponse "%s" response);;
  mret response.

Definition list_parts (mpu_id bucket object_name : string) : M response :=
  response ← request (ListParts bucket object_name mpu_id);
  log ModuleLogger DEBUG (LogResponse "%s" response);;
  mret response.

Definition complete_multipart_upload (mpu_id : string) (parts : list part)
    (bucket object_name : string) : M response :=
  log ModuleLogger DEBUG (LogText "initiated complete multipart upload");;
  response ← request (CompleteMultipartUpload bucket object_name mpu_id parts);
  log ModuleLogger DEBUG (LogResponse "%s" response);;
  mret response.

Definition list_multipart_uploads (bucket : string) : M response :=
  response ← request (ListMultipartUploads bucket);
  log ModuleLogger DEBUG (LogResponse "%s" response);;
  mret response.

Definition abort_multipart_upload (bucket object_name upload_id : string) : M response :=
  response ← request (AbortMultipartUpload bucket object_name upload_id);
  log ModuleLogger DEBUG (LogResponse "%s" response);;
  mret response.

Definition upload_part_copy (copy_source bucket_name object_name : string)
    (kwargs : gmap string pyval) : M response :=
  let upload_id := kwargs_get kwargs "upload_id" in
  let part_number := kwargs_get kwargs "part_number" in
  response ← request (UploadPartCopy bucket_name object_name upload_id part_number copy_source);
  log RootLogger DEBUG (LogResponse "%s" response);;
  mret response.

(** The body of the [while True] loop of [upload_parts] once a non-empty
    chunk [data] has been read: upload it as part [i], record its tag,
    count its bytes and log the progress.  It yields the new [parts] and
    [uploaded_bytes]. *)
Definition upload_chunk (mpu_id : pyval) (bucket_name object_name : string)
    (multipart_obj_size : Z) (data : list byte) (i : Z) (parts : list part)
    (uploaded_bytes : Z) : M (list part * Z) :=
  part ← upload_part data bucket_name object_name
           (<["upload_id" := mpu_id]> (<["part_number" := PyInt i]> ∅));
  log ModuleLogger DEBUG (LogResponse "Part : %s" part);;
  etag ← getitem part "ETag";
  let parts := parts ++ [Part i etag] in
  let uploaded_bytes := uploaded_bytes + len data in
  percent ← lift (cal_percent uploaded_bytes (multipart_obj_size * 1048576));
  log ModuleLogger DEBUG
    (LogProgress uploaded_bytes (multipart_obj_size * 1048576) percent);;
  mret (parts, uploaded_bytes).

(** The [while True] loop of [upload_parts].  [file_pointer] is the unread
    content of the open file; the loop yields its outcome together with
    what the file pointer has left unread when the loop is left. *)
Equations? upload_loop (mpu_id : pyval) (bucket_name object_name : string)
    (multipart_obj_size single_part_size : Z) (file_pointer : list byte) (i : Z)
    (parts : list part) (uploaded_bytes : Z) (w : world)
    : result (list part) * list byte * world
    by wf (length file_pointer) lt :=
  upload_loop mpu_id bucket_name object_name multipart_obj_size single_part_size
      file_pointer i parts uploaded_bytes w
    with inspect (file_read single_part_size file_pointer) := {
    | exist _ (Raise e) _ => (Raise e, file_pointer, w)
    | exist _ (Ok (pair nil rest)) _ =>
        (Ok parts, rest, emit (ELog ModuleLogger INFO (LogDataLen 0)) w)
    | exist _ (Ok (pair (cons b data) rest)) Hread =>
        match upload_chunk mpu_id bucket_name object_name multipart_obj_size
                (b :: data) i parts uploaded_bytes
                (emit (ELog ModuleLogger INFO (LogDataLen (len (b :: data)))) w) with
        | (Raise e, w') => (Raise e, rest, w')
        | (Ok (parts', uploaded_bytes'), w') =>
            upload_loop mpu_id bucket_name object_name multipart_obj_size
              single_part_size rest (i + 1) parts' uploaded_bytes' w'
        end
    }.
Proof. eapply file_read_shrinks, Hread. Qed.

(** [upload_parts]: check the path, size the parts, then read and upload
    chunk after chunk inside [with open(...)], which closes the file
    however the loop ends. *)
Definition upload_parts (mpu_id : pyval) (bucket_name object_name multipart_obj_path : string)
    (total_parts : Z) : M (list part) := fun w =>
  match w_fs w !! multipart_obj_path with
  | None =>
      (Raise (IOError [PyStr "File path '%s' does not exists."; PyStr multipart_obj_path]), w)
  | Some content =>
      let multipart_obj_size := len content in
      if decide (total_parts = 0) then (Raise ZeroDivisionError, w) else
      let single_part_size := multipart_obj_size `div` total_parts in
      let '(r, _, w') :=
        upload_loop mpu_id bucket_name object_name multipart_obj_size single_part_size
          content 1 [] 0 (emit (EOpen multipart_obj_path) w) in
      let w'' := emit (EClose multipart_obj_path) w' in
      match r with
      | Ok parts => (log ModuleLogger INFO (LogParts parts);; mret parts) w''
      | Raise e => (Raise e, w'')
      end
  end.

(** An operation passes request [c] through: it sends [c] to the client
    once and nothing else, and its outcome is the client's own, be it a
    response or an exception. *)
Definition passes_through (op : M response) (c : s3_call) : Prop :=
  ∀ w, ∃ w',
    op w = ((s3_client c (w_client w)).1, w') ∧
    w_client w' = (s3_client c (w_client w)).2 ∧
    w_fs w' = w_fs w ∧
    ∃ evs, w_trace w' = w_trace w ++ evs ∧ calls_of evs = [c].

(** What one successful turn of the loop adds to the trace: chunk [data]
    read and uploaded as part [i], answered by [resp]. *)
Definition chunk_events (mpu_id : pyval) (bucket_name object_name : string)
    (multipart_obj_size : Z) (data : list byte) (i uploaded_bytes : Z)
    (resp : response) (percent : Q) : list event :=
  [ ELog ModuleLogger INFO (LogDataLen (len data));
    ECall (UploadPart data bucket_name object_name mpu_id (PyInt i));
    ELog RootLogger DEBUG (LogResponse "%s" resp);
    ELog ModuleLogger DEBUG (LogResponse "Part : %s" resp);
    ELog ModuleLogger DEBUG
      (LogProgress (uploaded_bytes + len data) (multipart_obj_size * 1048576) percent) ].

(** The runs of the loop that end without an exception, as a relation:
    either the read comes back empty, or a chunk is uploaded and the loop
    goes on from the rest of the file. *)
Inductive run (mpu_id : pyval) (bucket_name object_name : string)
    (multipart_obj_size single_part_size : Z)
    : list byte → Z → list part → Z → world → list part → list byte → world → Prop :=
| run_stop file_pointer rest i parts uploaded_bytes w :
    file_read single_part_size file_pointer = Ok ([], rest) →
    run mpu_id bucket_name object_name multipart_obj_size single_part_size
      file_pointer i parts uploaded_bytes w
      parts rest (emit (ELog ModuleLogger INFO (LogDataLen 0)) w)
| run_step file_pointer b data rest i parts uploaded_bytes w
      resp st etag percent parts' rest' w' :
    file_read single_part_size file_pointer = Ok (b :: data, rest) →
    s3_client (UploadPart (b :: data) bucket_name object_name mpu_id (PyInt i))
      (w_client w) = (Ok resp, st) →
    resp !! "ETag" = Some etag →
    cal_percent (uploaded_bytes + len (b :: data)) (multipart_obj_size * 1048576)
      = Ok percent →
    run mpu_id bucket_name object_name multipart_obj_size single_part_size
      rest (i + 1) (parts ++ [Part i etag]) (uploaded_bytes + len (b :: data))
      {| w_fs := w_fs w; w_client := st;
         w_trace := w_trace w ++
           chunk_events mpu_id bucket_name object_name multipart_obj_size
             (b :: data) i uploaded_bytes resp percent |}
      parts' rest' w' →
    run mpu_id bucket_name object_name multipart_obj_size single_part_size
      file_pointer i parts uploaded_bytes w parts' rest' w'.

(** The client's answers to the requests [cs], sent one after the other
    from state [st], and the state they leave it in. *)
Fixpoint replay (cs : list s3_call) (st : client_state)
    : list (result response) * client_state :=
  match cs with
  | [] => ([], st)
  | c :: cs' =>
      let '(r, st') := s3_client c st in
      let '(rs, st'') := replay cs' st' in
      (r :: rs, st'')
  end.

End Client.

(** A storage service that accepts every request: it counts the requests
    it has served and tags an uploaded part with its part number. *)
Definition accepting_client (c : s3_call) (served : nat) : result response * nat :=
  match c with
  | UploadPart _ _ _ _ n => (Ok (<["ETag" := n]> ∅), S served)
  | _ => (Ok ∅, S served)
  end.

(** A storage service that refuses every request, and one that accepts
    but answers without an [ETag]. *)
Definition refusing_client (c : s3_call) (served : nat) : result response * nat :=
  (Raise (ClientError "AccessDenied"), S served).

Definition tagless_client (c : s3_call) (served : nat) : result response * nat :=
  (Ok ∅, S served).

(** A disk that holds one file of [size] zero bytes at [path], with the
    accepting service and an empty trace. *)
Definition one_file (path : string) (size : nat) : world (client_state := nat) :=
  {| w_fs := <[path := repeat Byte.x00 size]> ∅; w_client := 0%nat; w_trace := [] |}.

End S3.

(** ** libs/di/di_run_man.py *)

Module Di.

(** The keywords of a call, taken in the order they are written: a keyword
    that names no parameter, or a parameter that already has a value, is
    the error of the call. *)
Fixpoint bind_keywords (fname : string) (params filled keys : list string)
    : option type_error :=
  match keys with
  | [] => None
  | k :: keys' =>
      if decide (k ∈ params)
      then if decide (k ∈ filled) then Some (MultipleValues fname k)
           else bind_keywords fname params (k :: filled) keys'
      else Some (UnexpectedKeyword fname k)
  end.

(** Binding the positional and keyword arguments of a call to the required
    parameters [params] of [f] ([self] already bound), in the order the
    interpreter goes about it: positional arguments fill the parameters
    from the left; the keywords are bound; then positional arguments in
    excess are an error; then a parameter left without a value is one.
    Every error is a [TypeError]. *)
Definition bind_arguments {V} (fname : string) (params : list string)
    (args : list V) (kwargs : list (string * V)) : result (gmap string V) :=
  match bind_keywords fname params (take (length args) params) kwargs.*1 with
  | Some why => Raise (TypeError why)
  | None =>
      if decide (length params < length args)%nat
      then Raise (TypeError (TooManyPositional fname (length args)))
      else
        match filter (λ p, p ∉ kwargs.*1) (drop (length args) params) with
        | [] => Ok (list_to_map (zip params args ++ kwargs))
        | missing => Raise (TypeError (MissingArguments fname missing))
        end
  end.

(** How a callable is given its argument: as it is, [One], or unpacked
    into positional arguments, [Star] (the way a thread calls its target). *)
Inductive call_shape (V : Type) : Type :=
| One (v : V)
| Star (v : V).
Arguments One {V} v.
Arguments Star {V} v.

Inductive thread_status : Type :=
| Initial
| Started
| Stopped (outcome : result unit).

Inductive event : Type :=
| EThreadStart (t : nat)
| EThreadJoin (t : nat) (timeout : option Z)
| EUploaderNew
| EUploaderStart
| EUploaderStop
| EVerify.

Section Collaborators.

(** Opaque Python values (users, buckets, the uploader object) and the
    state the collaborators work on. *)
Context {pyobj ext_state : Type}.

(** [uploader.Uploader()], [<uploader>.start(...)], [<uploader>.stop()] and
    [DataIntegrityValidator.verify_data_integrity()]. *)
Variable Uploader : ext_state → result pyobj * ext_state.
Variable uploader_start : pyobj → call_shape pyobj → ext_state → result unit * ext_state.
Variable uploader_stop : pyobj → ext_state → result unit * ext_state.
Variable verify_data_integrity : ext_state → result unit * ext_state.

(** A [threading.Thread(target=<uploader>.start, args=...)]. *)
Record thread : Type := Thread {
  t_target : pyobj;
  t_args : pyobj;
  t_status : thread_status
}.

(** The attributes of an instance; [None] is an attribute that is unset or
    holds Python's [None] (reading through it is an [AttributeError]). *)
Record ASyncIO : Type := Attributes {
  uploader : option pyobj;
  users : option pyobj;
  bg_thread : option nat
}.

Definition blank : ASyncIO :=
  {| uploader := None; users := None; bg_thread := None |}.

(** Attribute assignments [self.x = v]. *)
Definition set_uploader (v : option pyobj) (self : ASyncIO) : ASyncIO :=
  {| uploader := v; users := users self; bg_thread := bg_thread self |}.
Definition set_users (v : option pyobj) (self : ASyncIO) : ASyncIO :=
  {| uploader := uploader self; users := v; bg_thread := bg_thread self |}.
Definition set_bg_thread (v : option nat) (self : ASyncIO) : ASyncIO :=
  {| uploader := uploader self; users := users self; bg_thread := v |}.

(** The instance at hand, the collaborators' state, the threads created so
    far (a thread is named by its index) and the trace. *)
Record world : Type := World {
  w_self : ASyncIO;
  w_ext : ext_state;
  w_threads : list thread;
  w_trace : list event
}.

Definition M (A : Type) : Type := world → result A * world.

#[export] Instance M_ret : MRet M := fun A a w => (Ok a, w).
#[export] Instance M_throw : MThrow exn M := fun A e w => (Raise e, w).
#[export] Instance M_bind : MBind M := fun A B k m w =>
  match m w with
  | (Ok a, w') => k a w'
  | (Raise e, w') => (Raise e, w')
  end.

Definition lift {A} (r : result A) : M A := fun w => (r, w).

Definition set_self (f : ASyncIO → ASyncIO) : M unit := fun w =>
  (Ok tt, {| w_self := f (w_self w); w_ext := w_ext w;
             w_threads := w_threads w; w_trace := w_trace w |}).

Definition emit (e : event) (w : world) : world :=
  {| w_self := w_self w; w_ext := w_ext w;
     w_threads := w_threads w; w_trace := w_trace w ++ [e] |}.

(** A call to a collaborator, recorded as [e]. *)
Definition external {A} (e : event) (f : ext_state → result A * ext_state) : M A :=
  fun w =>
    let '(r, st) := f (w_ext w) in
    (r, {| w_self := w_self w; w_ext := st;
           w_threads := w_threads w; w_trace := w_trace w ++ [e] |}).

(** [threading.Thread(target=..., args=...)]: a new thread, not started. *)
Definition thread_new (target args : pyobj) : M nat := fun w =>
  (Ok (length (w_threads w)),
   {| w_self := w_self w; w_ext := w_ext w;
      w_threads := w_threads w ++ [Thread target args Initial];
      w_trace := w_trace w |}).

Definition set_status (t : nat) (s : thread_status) (w : world) : world :=
  {| w_self := w_self w; w_ext := w_ext w;
     w_threads := alter (λ th, Thread (t_target th) (t_args th) s) t (w_threads w);
     w_trace := w_trace w |}.

(** [Thread.start()]. *)
Definition thread_start (t : nat) : M unit := fun w =>
  match w_threads w !! t with
  | Some th =>
      match t_status th with
      | Initial => (Ok tt, emit (EThreadStart t) (set_status t Started w))
      | _ => (Raise (RuntimeError "threads can only be started once"), w)
      end
  | None => (Raise (RuntimeError "no such thread"), w)
  end.

(** [Thread.join(timeout)].  Without a timeout the call returns only once
    the thread has terminated: the target has run to its end, whatever its
    outcome, which the thread keeps to itself.  The interleaving of the
    worker with its caller is not modelled; the work of a thread that is
    still running is accounted for when it is waited for, so the model
    speaks for the workers that are joined and leaves a worker that never
    is out of account.  With a timeout the call may return while the
    thread is still running. *)
Definition thread_join (t : nat) (timeout : option Z) : M unit := fun w =>
  match w_threads w !! t with
  | Some th =>
      match t_status th, timeout with
      | Initial, _ => (Raise (RuntimeError "cannot join thread before it is started"), w)
      | Stopped _, _ => (Ok tt, emit (EThreadJoin t timeout) w)
      | Started, Some _ => (Ok tt, emit (EThreadJoin t timeout) w)
      | Started, None =>
          let '(outcome, st) := uploader_start (t_target th) (Star (t_args th)) (w_ext w) in
          (Ok tt,
           emit (EThreadJoin t timeout)
             (set_status t (Stopped outcome)
                {| w_self := w_self w; w_ext := st;
                   w_threads := w_threads w; w_trace := w_trace w |}))
      end
  | None => (Raise (RuntimeError "no such thread"), w)
  end.

(** Reading [self.uploader] and [self.bg_thread] for a method call. *)
Definition get_uploader : M pyobj := fun w =>
  match uploader (w_self w) with
  | Some u => (Ok u, w)
  | None => (Raise (AttributeError "uploader"), w)
  end.

Definition get_bg_thread (method : string) : M nat := fun w =>
  match bg_thread (w_self w) with
  | Some t => (Ok t, w)
  | None =>
      (Raise (AttributeError ("'NoneType' object has no attribute '" ++ method ++ "'")%string),
       w)
  end.

(** [ASyncIO.__init__(self, upload_cls, users)]. *)
Definition ASyncIO___init__ (upload_cls users : pyobj) : M unit :=
  set_self (set_uploader (Some upload_cls));;
  set_self (set_users (Some users));;
  set_self (set_bg_thread None).

Definition ASyncIO___init___params : list string := ["upload_cls"; "users"].

(** A call of [ASyncIO.__init__] on [self] with the given arguments. *)
Definition call_ASyncIO___init__ (args : list pyobj) (kwargs : list (string * pyobj))
    : M unit :=
  bound ← lift (bind_arguments "__init__" ASyncIO___init___params args kwargs);
  match bound !! "upload_cls", bound !! "users" with
  | Some upload_cls, Some users => ASyncIO___init__ upload_cls users
  | _, _ => mthrow (TypeError (MissingArguments "__init__" ASyncIO___init___params))
  end.

Definition start_io_async (users buckets : pyobj) : M unit :=
  target ← get_uploader;
  t ← thread_new target users;
  set_self (set_bg_thread (Some t));;
  t ← get_bg_thread "start";
  thread_start t.

Definition stop_io_async (di_check : bool) : M unit :=
  t ← get_bg_thread "join";
  thread_join t None;;
  if di_check then external EVerify verify_data_integrity else mret tt.

(** [RunDataCheckManager.__init__(self, users)]. *)
Definition RunDataCheckManager___init__ (users : pyobj) : M unit :=
  u ← external EUploaderNew Uploader;
  set_self (set_uploader (Some u));;
  set_self (set_users (Some users));;
  call_ASyncIO___init__ [] [("users", users)].

Definition RunDataCheckManager___init___params : list string := ["users"].

Definition call_RunDataCheckManager___init__ (args : list pyobj)
    (kwargs : list (string * pyobj)) : M unit :=
  bound ← lift (bind_arguments "__init__" RunDataCheckManager___init___params args kwargs);
  match bound !! "users" with
  | Some users => RunDataCheckManager___init__ users
  | None => mthrow (TypeError (MissingArguments "__init__" RunDataCheckManager___init___params))
  end.

Definition get_self : M ASyncIO := fun w => (Ok (w_self w), w).

(** A call of the class [RunDataCheckManager]: a blank instance is made and
    initialised; the instance is the result when [__init__] returns. *)
Definition RunDataCheckManager (args : list pyobj) (kwargs : list (string * pyobj))
    : M ASyncIO :=
  set_self (λ _, blank);;
  call_RunDataCheckManager___init__ args kwargs;;
  get_self.

Definition start_io (users buckets : pyobj) : M unit :=
  u ← get_uploader;
  external EUploaderStart (uploader_start u (One users)).

Definition stop_io (di_check : bool) : M unit :=
  u ← get_uploader;
  external EUploaderStop (uploader_stop u);;
  if di_check then external EVerify verify_data_integrity else mret tt.

(** Thread [t] has been started, and thread [t] has terminated. *)
Definition started (w : world) (t : nat) : Prop :=
  ∃ th, w_threads w !! t = Some th ∧ t_status th ≠ Initial.

Definition terminated (w : world) (t : nat) : Prop :=
  ∃ th outcome, w_threads w !! t = Some th ∧ t_status th = Stopped outcome.

(** The verification step from [w], spelled out: the verifier's outcome and
    the world it leaves. *)
Definition verified (w : world) : result unit * world :=
  ((verify_data_integrity (w_ext w)).1,
   {| w_self := w_self w; w_ext := (verify_data_integrity (w_ext w)).2;
      w_threads := w_threads w; w_trace := w_trace w ++ [EVerify] |}).

End Collaborators.

(** Collaborators to run the model on: values are strings, the state is the
    list of what has been asked of the collaborators.  The uploader can be
    built, its workload fails, and the verifier finds a mismatch. *)
Definition build_uploader (st : list string) : result string * list string :=
  (Ok "uploader", st ++ ["Uploader()"]).

Definition failing_workload (u : string) (arg : call_shape string) (st : list string)
    : result unit * list string :=
  (Raise (Foreign "upload failed"), st ++ ["start"]).

Definition stopping_uploader (u : string) (st : list string) : result unit * list string :=
  (Ok tt, st ++ ["stop"]).

Definition failing_verifier (st : list string) : result unit * list string :=
  (Raise (Foreign "data integrity mismatch"), st ++ ["verify_data_integrity"]).

(** An instance of [ASyncIO] as its [__init__] leaves it, before any
    workload has been started. *)
Definition fresh_manager : world (pyobj := string) (ext_state := list string) :=
  {| w_self := {| uploader := Some "uploader"; users := Some "users"; bg_thread := None |};
     w_ext := []; w_threads := []; w_trace := [] |}.

(** The manager after [start_io_async]: its worker thread is running. *)
Definition running_manager : world (pyobj := string) (ext_state := list string) :=
  (start_io_async "users" "buckets" fresh_manager).2.

(** The running manager after a first [stop_io_async] without verification. *)
Definition stopped_manager : world (pyobj := string) (ext_state := list string) :=
  (stop_io_async failing_workload failing_verifier false running_manager).2.

End Di.

(** * Properties *)

(** ** The multipart coordinator *)

Module S3Facts.
Import S3.

Section Client.

Context {client_state : Type}.
Variable s3_client : s3_call → client_state → result response * client_state.

Implicit Types (w : world (client_state := client_state)).
Implicit Types (fp data rest : list byte) (parts : list part).

Local Abbreviation upload_loop := (S3.upload_loop s3_client).
Local Abbreviation upload_chunk := (S3.upload_chunk s3_client).
Local Abbreviation upload_parts := (S3.upload_parts s3_client).

(** The loop, one turn unfolded. *)
Lemma upload_loop_unfold mpu_id bucket_name object_name size p fp i parts ub w :
  upload_loop mpu_id bucket_name object_name size p fp i parts ub w =
  match file_read p fp with
  | Raise e => (Raise e, fp, w)
  | Ok ([], rest) => (Ok parts, rest, emit (ELog ModuleLogger INFO (LogDataLen 0)) w)
  | Ok (b :: data, rest) =>
      match upload_chunk mpu_id bucket_name object_name size (b :: data) i parts ub
              (emit (ELog ModuleLogger INFO (LogDataLen (len (b :: data)))) w) with
      | (Raise e, w') => (Raise e, rest, w')
      | (Ok (parts', ub'), w') =>
          upload_loop mpu_id bucket_name object_name size p rest (i + 1) parts' ub' w'
      end
  end.
Proof.
  funelim (upload_loop mpu_id bucket_name object_name size p fp i parts ub w).
  - rewrite e. reflexivity.
  - rewrite Hread. reflexivity.
  - rewrite e1. reflexivity.
Qed.

Local Abbreviation run := (S3.run s3_client).

Lemma file_read_app p fp data rest :
  file_read p fp = Ok (data, rest) → data ++ rest = fp.
Proof.
  unfold file_read. intros Hread.
  destruct (decide (p < -1)); [discriminate|].
  destruct (decide (p = -1)); injection Hread as <- <-.
  - apply app_nil_r.
  - apply take_drop.
Qed.

Lemma file_read_zero fp : file_read 0 fp = Ok ([], fp).
Proof. unfold file_read. simpl. by rewrite drop_0. Qed.

(** Unless it asks for zero bytes, a read comes back empty only at the end
    of the file. *)
Lemma file_read_pos_nil p fp rest :
  p ≠ 0 → file_read p fp = Ok ([], rest) → fp = [] ∧ rest = [].
Proof.
  unfold file_read. intros Hp Hread.
  destruct (decide (p < -1)); [discriminate|].
  destruct (decide (p = -1)); [by injection Hread as -> <-|].
  injection Hread as Htake Hdrop.
  destruct fp as [|x fp]; [by rewrite drop_nil in Hdrop|].
  destruct (Z.to_nat p) eqn:Hn; [lia | discriminate].
Qed.

Lemma file_read_len p fp data rest :
  0 ≤ p → file_read p fp = Ok (data, rest) → len data = p `min` len fp.
Proof.
  unfold file_read, len. intros Hp Hread.
  destruct (decide (p < -1)); [lia|].
  destruct (decide (p = -1)); [lia|].
  injection Hread as <- <-. rewrite length_take. lia.
Qed.

Lemma calls_of_app tr1 tr2 : calls_of (tr1 ++ tr2) = calls_of tr1 ++ calls_of tr2.
Proof.
  induction tr1 as [|[] tr1 IH]; simpl; [done| |done..].
  by rewrite IH.
Qed.

Lemma progress_of_app tr1 tr2 :
  progress_of (tr1 ++ tr2) = progress_of tr1 ++ progress_of tr2.
Proof.
  induction tr1 as [|[| ? ? [] | |] tr1 IH]; simpl; try done.
  by rewrite IH.
Qed.

Lemma bodies_of_app tr1 tr2 : bodies_of (tr1 ++ tr2) = bodies_of tr1 ++ bodies_of tr2.
Proof. unfold bodies_of. by rewrite calls_of_app, omap_app. Qed.

Lemma kwargs_upload_id (mpu_id n : pyval) :
  kwargs_get (<["upload_id" := mpu_id]> (<["part_number" := n]> ∅)) "upload_id" = mpu_id.
Proof. unfold kwargs_get. by rewrite lookup_insert_eq. Qed.

Lemma kwargs_part_number (mpu_id n : pyval) :
  kwargs_get (<["upload_id" := mpu_id]> (<["part_number" := n]> ∅)) "part_number" = n.
Proof.
  unfold kwargs_get. rewrite lookup_insert_ne by done. by rewrite lookup_insert_eq.
Qed.

(** A turn of the loop that does not raise: the service accepted the part,
    its answer carries an [ETag], and the turn leaves exactly
    [chunk_events] behind. *)
Lemma upload_chunk_ok mpu_id bucket_name object_name size data i parts ub w parts' ub' w' :
  upload_chunk mpu_id bucket_name object_name size data i parts ub
    (emit (ELog ModuleLogger INFO (LogDataLen (len data))) w) = (Ok (parts', ub'), w') →
  ∃ resp st etag percent,
    s3_client (UploadPart data bucket_name object_name mpu_id (PyInt i)) (w_client w)
      = (Ok resp, st) ∧
    resp !! "ETag" = Some etag ∧
    cal_percent (ub + len data) (size * 1048576) = Ok percent ∧
    parts' = parts ++ [Part i etag] ∧
    ub' = ub + len data ∧
    w' = {| w_fs := w_fs w; w_client := st;
            w_trace := w_trace w ++
              chunk_events mpu_id bucket_name object_name size data i ub resp percent |}.
Proof.
  unfold S3.upload_chunk, upload_part, request, log, getitem, lift.
  rewrite kwargs_upload_id, kwargs_part_number.
  unfold mbind, M_bind, mret, M_ret, mthrow, M_throw. simpl.
  destruct (s3_client _ _) as [[resp|e] st]; [|discriminate].
  destruct (resp !! "ETag") as [etag|] eqn:Hetag; [|discriminate]. simpl.
  destruct (cal_percent _ _) as [percent|e]; [|discriminate].
  intros [= <- <- <-]. exists resp, st, etag, percent.
  repeat split; try done.
  unfold emit, chunk_events. simpl. f_equal.
  rewrite <- !app_assoc. reflexivity.
Qed.

(** The loop returns normally exactly along a [run]. *)
Lemma upload_loop_run mpu_id bucket_name object_name size p fp i parts ub w parts' rest' w' :
  upload_loop mpu_id bucket_name object_name size p fp i parts ub w = (Ok parts', rest', w') →
  run mpu_id bucket_name object_name size p fp i parts ub w parts' rest' w'.
Proof.
  remember (length fp) as n eqn:Hn.
  revert fp i parts ub w Hn.
  induction n as [n IH] using lt_wf_ind. intros fp i parts ub w -> Hloop.
  rewrite upload_loop_unfold in Hloop.
  destruct (file_read p fp) as [[[|b data] rest]|e] eqn:Hread; [| |discriminate].
  - injection Hloop as <- <- <-. by constructor.
  - destruct (upload_chunk _ _ _ _ _ _ _ _ _) as [[[parts1 ub1]|e] w1] eqn:Hchunk;
      [|discriminate].
    apply upload_chunk_ok in Hchunk
      as (resp & st & etag & percent & Hreq & Hetag & Hpct & -> & -> & ->).
    eapply run_step; try eassumption.
    eapply IH; [|reflexivity|exact Hloop].
    eapply file_read_shrinks, Hread.
Qed.

(** What a run leaves behind: the parts it appends, numbered upwards from
    [i]; the events it appends, whose requests are the uploads of exactly
    those parts in that order; the chunks it has uploaded, which together
    with the unread rest make up the file; and progress observations that
    all measure against [size * 1048576]. *)
Lemma run_summary mpu_id bucket_name object_name size p fp i parts ub w parts' rest' w' :
  run mpu_id bucket_name object_name size p fp i parts ub w parts' rest' w' →
  ∃ new evs,
    parts' = parts ++ new ∧
    w_trace w' = w_trace w ++ evs ∧
    w_fs w' = w_fs w ∧
    (∀ k part, new !! k = Some part → PartNumber part = i + Z.of_nat k) ∧
    part_number_of_call <$> calls_of evs = (λ part, Some (PyInt (PartNumber part))) <$> new ∧
    body_of_call <$> calls_of evs = Some <$> bodies_of evs ∧
    concat (bodies_of evs) ++ rest' = fp ∧
    Forall (λ o, o.1.2 = size * 1048576) (progress_of evs).
Proof.
  induction 1 as [fp rest i parts ub w Hread
                 |fp b data rest i parts ub w resp st etag percent parts' rest' w'
                    Hread Hreq Hetag Hpct Hrun IH].
  - exists [], [ELog ModuleLogger INFO (LogDataLen 0)].
    rewrite app_nil_r. repeat split; try done.
    apply file_read_app in Hread. exact Hread.
  - destruct IH as (new & evs & -> & Htr & Hfs & Hnum & Hcalls & Hbodies & Hcat & Hprog).
    exists (Part i etag :: new),
      (chunk_events mpu_id bucket_name object_name size (b :: data) i ub resp percent ++ evs).
    simpl in Htr, Hfs.
    repeat split.
    + by rewrite <- app_assoc.
    + by rewrite Htr, <- app_assoc.
    + exact Hfs.
    + intros [|k] part Hk; simpl in Hk.
      * injection Hk as <-. simpl. lia.
      * apply Hnum in Hk. lia.
    + rewrite calls_of_app, fmap_app, Hcalls. reflexivity.
    + rewrite calls_of_app, bodies_of_app, !fmap_app, Hbodies. reflexivity.
    + rewrite bodies_of_app. simpl.
      apply file_read_app in Hread. rewrite <- Hread, <- Hcat.
      by rewrite <- app_assoc.
    + rewrite progress_of_app. simpl. by constructor.
Qed.

(** With a part size of at least one byte a run reads the file to its end. *)
Lemma run_reads_all mpu_id bucket_name object_name size p fp i parts ub w parts' rest' w' :
  1 ≤ p →
  run mpu_id bucket_name object_name size p fp i parts ub w parts' rest' w' →
  rest' = [].
Proof.
  intros Hp. induction 1 as [? ? ? ? ? ? Hread|]; [|done].
  apply file_read_pos_nil in Hread as [_ ->]; [done | lia].
Qed.

(** With a part size of zero a run stops at once: nothing is read, nothing
    is uploaded, and the whole file is left unread. *)
Lemma run_part_size_zero mpu_id bucket_name object_name size fp i parts ub w parts' rest' w' :
  run mpu_id bucket_name object_name size 0 fp i parts ub w parts' rest' w' →
  parts' = parts ∧ rest' = fp ∧ w' = emit (ELog ModuleLogger INFO (LogDataLen 0)) w.
Proof.
  inversion 1 as [? ? ? ? ? ? Hread|? ? ? ? ? ? ? ? ? ? ? ? ? ? ? Hread];
    rewrite file_read_zero in Hread; [|discriminate].
  injection Hread as <-. done.
Qed.

(** The last progress observation of a run over a non-empty file, with a
    part size other than zero, counts every byte of the file. *)
Lemma run_final_progress mpu_id bucket_name object_name size p fp i parts ub w parts' rest' w' :
  p ≠ 0 → fp ≠ [] →
  run mpu_id bucket_name object_name size p fp i parts ub w parts' rest' w' →
  ∃ evs percent,
    cal_percent (ub + len fp) (size * 1048576) = Ok percent ∧
    w_trace w' = w_trace w ++ evs ++
      [ ELog ModuleLogger DEBUG (LogProgress (ub + len fp) (size * 1048576) percent);
        ELog ModuleLogger INFO (LogDataLen 0) ].
Proof.
  intros Hp Hfp Hrun. induction Hrun
    as [fp rest i parts ub w Hread
       |fp b data rest i parts ub w resp st etag percent parts' rest' w'
          Hread Hreq Hetag Hpct Hrun IH].
  - by apply file_read_pos_nil in Hread as [-> _].
  - pose proof (file_read_app _ _ _ _ Hread) as Hfile.
    destruct rest as [|x rest].
    + (* the chunk was the last one *)
      rewrite app_nil_r in Hfile. subst fp.
      inversion Hrun as [? ? ? ? ? ? Hread'|? ? ? ? ? ? ? ? ? ? ? ? ? ? ? Hread']; subst.
      2:{ apply file_read_app in Hread'. by destruct data0. }
      exists [ ELog ModuleLogger INFO (LogDataLen (len (b :: data)));
               ECall (UploadPart (b :: data) bucket_name object_name mpu_id (PyInt i));
               ELog RootLogger DEBUG (LogResponse "%s" resp);
               ELog ModuleLogger DEBUG (LogResponse "Part : %s" resp) ], percent.
      split; [exact Hpct|].
      unfold emit, chunk_events. cbn [w_trace].
      rewrite <- app_assoc. reflexivity.
    + destruct IH as (evs & pct & Hpct' & Htr); [done|].
      assert (ub + len (b :: data) + len (x :: rest) = ub + len fp) as Hlen.
      { rewrite <- Hfile. unfold len. rewrite length_app. lia. }
      rewrite Hlen in Hpct', Htr.
      exists (chunk_events mpu_id bucket_name object_name size (b :: data) i ub resp percent
                ++ evs), pct.
      split; [exact Hpct'|].
      rewrite Htr. cbn [w_trace]. by rewrite <- !app_assoc.
Qed.

(** With a part size of at least one byte every chunk a run uploads has
    between one and [p] bytes, and every chunk but the last has exactly
    [p]: what is left over when [p] does not divide the size goes into a
    further, shorter chunk of its own. *)
Lemma run_chunk_sizes mpu_id bucket_name object_name size p fp i parts ub w parts' rest' w' :
  1 ≤ p →
  run mpu_id bucket_name object_name size p fp i parts ub w parts' rest' w' →
  ∃ evs,
    w_trace w' = w_trace w ++ evs ∧
    length (bodies_of evs) = Z.to_nat ((len fp + p - 1) `div` p) ∧
    ∀ k body, bodies_of evs !! k = Some body →
      1 ≤ len body ≤ p ∧ ((S k < length (bodies_of evs))%nat → len body = p).
Proof.
  intros Hp. induction 1
    as [fp rest i parts ub w Hread
       |fp b data rest i parts ub w resp st etag percent parts' rest' w'
          Hread Hreq Hetag Hpct Hrun IH].
  - exists [ELog ModuleLogger INFO (LogDataLen 0)]. split; [done|].
    apply file_read_pos_nil in Hread as [-> _]; [|lia]. split; [|done].
    unfold len. simpl. rewrite Z.div_small by lia. done.
  - destruct IH as (evs & Htr & Hcount & Hsizes).
    assert (0 ≤ p) as Hp0 by lia.
    pose proof (file_read_len _ _ _ _ Hp0 Hread) as Hlen.
    pose proof (file_read_app _ _ _ _ Hread) as Hfile.
    assert (len fp = len (b :: data) + len rest) as Hsum
      by (rewrite <- Hfile; unfold len; rewrite length_app; lia).
    assert (1 ≤ len (b :: data)) as Hpos by (unfold len; simpl; lia).
    exists (chunk_events mpu_id bucket_name object_name size (b :: data) i ub resp percent
              ++ evs).
    split; [by rewrite Htr; cbn [w_trace]; rewrite <- app_assoc|].
    rewrite bodies_of_app.
    change (bodies_of (chunk_events _ _ _ _ _ _ _ _ _)) with [b :: data].
    split.
    + cbn [length app]. rewrite Hcount.
      destruct (decide (len fp ≤ p)) as [Hshort|Hlong].
      * assert (len rest = 0) as -> by lia.
        replace ((0 + p - 1) `div` p) with 0 by (symmetry; apply Z.div_small; lia).
        replace ((len fp + p - 1) `div` p) with 1; [done|].
        apply Z.div_unique with (r := len fp - 1); lia.
      * assert (len rest = len fp - p) as -> by lia.
        replace (len fp + p - 1) with ((len fp - p + p - 1) + 1 * p) by lia.
        rewrite Z.div_add by lia.
        pose proof (Z.div_pos (len fp - p + p - 1) p). lia.
    + intros [|k] body Hk; cbn [app lookup list_lookup] in Hk.
      * injection Hk as <-. split; [lia|].
        cbn [length app]. intros Hmore.
        destruct (decide (len fp ≤ p)) as [Hshort|Hlong]; [|lia].
        assert (len rest = 0) as Hrest by lia. rewrite Hrest in Hcount.
        rewrite Z.div_small in Hcount by lia. simpl in Hcount. lia.
      * destruct (Hsizes k body Hk) as [Hb Hfull]. split; [done|].
        cbn [length app]. intros Hmore. apply Hfull. lia.
Qed.

(** Unfolding a normal return of [upload_parts]: the path exists, the
    number of parts is not zero, and the loop ran between the opening and
    the closing of the file. *)
Lemma upload_parts_ok mpu_id bucket_name object_name path total_parts w parts w' :
  upload_parts mpu_id bucket_name object_name path total_parts w = (Ok parts, w') →
  ∃ content rest wl,
    w_fs w !! path = Some content ∧
    total_parts ≠ 0 ∧
    run mpu_id bucket_name object_name (len content) (len content `div` total_parts)
      content 1 [] 0 (emit (EOpen path) w) parts rest wl ∧
    w' = emit (ELog ModuleLogger INFO (LogParts parts)) (emit (EClose path) wl).
Proof.
  unfold S3.upload_parts.
  destruct (w_fs w !! path) as [content|]; [|discriminate].
  destruct (decide (total_parts = 0)); [discriminate|].
  destruct (upload_loop _ _ _ _ _ _ _ _ _ _) as [[[parts1|e] rest] wl] eqn:Hloop;
    [|discriminate].
  intros [= <- <-]. apply upload_loop_run in Hloop.
  by exists content, rest, wl.
Qed.

(** X1: how [upload_parts] splits a file of [S] bytes that has at least one
    byte per requested part: with [p = S // total_parts], the chunks it
    uploads are the content cut every [p] bytes, so they add up to the
    whole file, there are [ceil (S / p)] of them, one per returned part,
    and all of them have [p] bytes but the last, which has what is left. *)
Theorem upload_parts_splits_file
    mpu_id bucket_name object_name path total_parts w content parts w' :
  1 ≤ total_parts ≤ len content →
  w_fs w !! path = Some content →
  upload_parts mpu_id bucket_name object_name path total_parts w = (Ok parts, w') →
  let p := len content `div` total_parts in
  ∃ evs,
    w_trace w' = w_trace w ++ evs ∧
    concat (bodies_of evs) = content ∧
    length parts = length (bodies_of evs) ∧
    length parts = Z.to_nat ((len content + p - 1) `div` p) ∧
    ∀ k body, bodies_of evs !! k = Some body →
      1 ≤ len body ≤ p ∧ ((S k < length parts)%nat → len body = p).
Proof.
  intros Hn Hpath Hcall p.
  apply upload_parts_ok in Hcall as (content' & rest & wl & Hpath' & _ & Hrun & ->).
  rewrite Hpath in Hpath'. injection Hpath' as <-. fold p in Hrun.
  assert (1 ≤ p) as Hp.
  { unfold p. apply Z.div_le_lower_bound; lia. }
  pose proof (run_reads_all _ _ _ _ _ _ _ _ _ _ _ _ _ Hp Hrun) as ->.
  destruct (run_summary _ _ _ _ _ _ _ _ _ _ _ _ _ Hrun)
    as (new & evs & Hnew & Htr & _ & _ & Hcalls & Hbodies & Hcat & _).
  destruct (run_chunk_sizes _ _ _ _ _ _ _ _ _ _ _ _ _ Hp Hrun)
    as (evs' & Htr' & Hcount & Hsizes).
  rewrite Htr in Htr'. apply app_inv_head in Htr'. subst evs'.
  simpl in Hnew. subst new. rewrite app_nil_r in Hcat.
  assert (length parts = length (bodies_of evs)) as Hlen.
  { rewrite <- (length_fmap (λ part, Some (PyInt (PartNumber part))) parts), <- Hcalls.
    rewrite <- (length_fmap Some (bodies_of evs)), <- Hbodies.
    by rewrite !length_fmap. }
  exists ([EOpen path] ++ evs ++ [EClose path; ELog ModuleLogger INFO (LogParts parts)]).
  assert (bodies_of ([EOpen path] ++ evs ++
            [EClose path; ELog ModuleLogger INFO (LogParts parts)]) = bodies_of evs) as ->.
  { rewrite !bodies_of_app.
    change (bodies_of [EOpen path]) with (@nil (list byte)).
    change (bodies_of [EClose path; ELog ModuleLogger INFO (LogParts parts)])
      with (@nil (list byte)).
    by rewrite app_nil_r. }
  split; [|split; [exact Hcat|split; [exact Hlen|split; [by rewrite Hlen|]]]].
  - cbn [emit w_trace]. rewrite Htr. cbn [emit w_trace].
    by rewrite <- !app_assoc.
  - intros k body Hk. destruct (Hsizes k body Hk) as [Hbounds Hfull].
    split; [exact Hbounds|]. intros Hmore. apply Hfull. by rewrite <- Hlen.
Qed.

Lemma fmap_seqZ_lookup {A} (f : A → Z) (l : list A) (i : Z) :
  (∀ k x, l !! k = Some x → f x = i + Z.of_nat k) → f <$> l = seqZ i (len l).
Proof.
  intros Hl. apply list_eq. intros k. rewrite list_lookup_fmap.
  destruct (l !! k) as [x|] eqn:Hk; simpl.
  - pose proof (lookup_lt_Some _ _ _ Hk) as Hlt.
    apply Hl in Hk as ->. symmetry. apply lookup_seqZ.
    split; [done|]. unfold len. lia.
  - symmetry. apply lookup_seqZ_ge. apply lookup_ge_None in Hk. unfold len. lia.
Qed.

Lemma run_no_parts mpu_id bucket_name object_name size p i parts ub w parts' rest' w' :
  run mpu_id bucket_name object_name size p [] i parts ub w parts' rest' w' →
  parts' = parts.
Proof.
  inversion 1 as [|? ? ? ? ? ? ? ? ? ? ? ? ? ? ? Hread]; [done|].
  by apply file_read_app in Hread.
Qed.

Lemma final_percent (size : Z) (percent : Q) :
  0 < size →
  cal_percent size (size * 1048576) = Ok percent →
  (percent == 100 # 1048576)%Q ∧ ¬ (percent == 100)%Q.
Proof.
  unfold cal_percent. intros Hsize Hpct.
  destruct (decide (size * 1048576 = 0)); [lia|]. injection Hpct as <-.
  assert (inject_Z size / inject_Z (size * 1048576) * 100 == 100 # 1048576)%Q as Heq.
  { rewrite inject_Z_mult.
    assert (¬ inject_Z size == 0)%Q as Hnz.
    { unfold Qeq, inject_Z. simpl. lia. }
    field. exact Hnz. }
  split; [exact Heq|]. rewrite Heq. done.
Qed.

(** C3: in a call of [upload_parts] that returns, the returned parts carry
    the part numbers 1, 2, 3, ... without a gap (the part at position [k],
    counted from zero, has number [k + 1]), and the requests the call has
    sent are, in order, the uploads of exactly these part numbers: one
    upload per returned part, in the order of the list. *)
Theorem upload_parts_part_numbers mpu_id bucket_name object_name path total_parts w parts w' :
  upload_parts mpu_id bucket_name object_name path total_parts w = (Ok parts, w') →
  PartNumber <$> parts = seqZ 1 (len parts) ∧
  (∀ k part, parts !! k = Some part → PartNumber part = Z.of_nat k + 1) ∧
  ∃ evs,
    w_trace w' = w_trace w ++ evs ∧
    part_number_of_call <$> calls_of evs = (λ n, Some (PyInt n)) <$> seqZ 1 (len parts).
Proof.
  intros Hcall.
  apply upload_parts_ok in Hcall as (content & rest & wl & _ & _ & Hrun & ->).
  apply run_summary in Hrun
    as (new & evs & -> & Htr & _ & Hnum & Hcalls & _ & _ & _).
  simpl in *.
  assert (PartNumber <$> new = seqZ 1 (len new)) as Hseq
    by (by apply fmap_seqZ_lookup).
  split; [exact Hseq|]. split; [intros k part Hk; apply Hnum in Hk; lia|].
  exists ([EOpen path] ++ evs ++
          [EClose path; ELog ModuleLogger INFO (LogParts new)]).
  split.
  - rewrite Htr. by rewrite <- !app_assoc.
  - rewrite !calls_of_app. simpl. rewrite app_nil_r.
    rewrite Hcalls, <- Hseq, <- list_fmap_compose. done.
Qed.

(** C4: when the file is not empty and [total_parts] exceeds its size in
    bytes, the part size is zero, the first read comes back empty and the
    loop is left at once: the whole content is still unread, no request
    has been sent, and [upload_parts] returns the empty list. *)
Theorem upload_parts_more_parts_than_bytes
    mpu_id bucket_name object_name path total_parts w content :
  w_fs w !! path = Some content →
  content ≠ [] →
  len content < total_parts →
  upload_loop mpu_id bucket_name object_name (len content)
      (len content `div` total_parts) content 1 [] 0 (emit (EOpen path) w)
    = (Ok [], content, emit (ELog ModuleLogger INFO (LogDataLen 0)) (emit (EOpen path) w)) ∧
  upload_parts mpu_id bucket_name object_name path total_parts w
    = (Ok [],
       {| w_fs := w_fs w; w_client := w_client w;
          w_trace := w_trace w ++
            [ EOpen path; ELog ModuleLogger INFO (LogDataLen 0);
              EClose path; ELog ModuleLogger INFO (LogParts []) ] |}).
Proof.
  intros Hpath Hne Hlt.
  assert (len content `div` total_parts = 0) as Hsize
    by (apply Z.div_small; unfold len in *; lia).
  assert (upload_loop mpu_id bucket_name object_name (len content)
            (len content `div` total_parts) content 1 [] 0 (emit (EOpen path) w)
          = (Ok [], content,
             emit (ELog ModuleLogger INFO (LogDataLen 0)) (emit (EOpen path) w))) as Hloop.
  { rewrite upload_loop_unfold, Hsize, file_read_zero. reflexivity. }
  split; [exact Hloop|].
  unfold S3.upload_parts. rewrite Hpath.
  destruct (decide (total_parts = 0)); [unfold len in Hlt; lia|].
  rewrite Hloop. unfold mbind, M_bind, log, mret, M_ret, emit. cbn [w_trace w_fs w_client].
  by rewrite <- !app_assoc.
Qed.

(** C5, as amended: when the path does not exist, [upload_parts] raises an
    [IOError] made from the message and the path, and leaves the world as
    it found it: no request has been sent, no file has been opened, nothing
    was uploaded.  The exception is a plain [OSError]: an instance of
    [OSError], the base class of [FileNotFoundError], and not an instance
    of [FileNotFoundError] itself. *)
Theorem upload_parts_missing_file mpu_id bucket_name object_name path total_parts w :
  w_fs w !! path = None →
  ∃ e,
    upload_parts mpu_id bucket_name object_name path total_parts w = (Raise e, w) ∧
    e = IOError [PyStr "File path '%s' does not exists."; PyStr path] ∧
    class_of e = Some cls_OSError ∧
    isinstance e cls_OSError = Some true ∧
    isinstance e cls_FileNotFoundError = Some false ∧
    parent cls_FileNotFoundError = Some cls_OSError.
Proof.
  intros Hpath. eexists. split; [|split; [reflexivity|]].
  - unfold S3.upload_parts. by rewrite Hpath.
  - by repeat split.
Qed.

Ltac pass_through :=
  intros w; unfold request, log, mbind, M_bind, mret, M_ret, emit;
  cbn [w_trace w_fs w_client];
  destruct (s3_client _ (w_client w)) as [[resp|e] st];
  eexists; (split; [reflexivity|]); cbn [fst snd w_trace w_fs w_client];
  (split; [reflexivity|]); (split; [reflexivity|]);
  rewrite <- ?app_assoc; eexists; (split; [reflexivity|]); reflexivity.

(** C7: each operation of the coordinator sends its one request to the
    storage client and hands back what the client gives: the response as
    it is, or the exception as it is; no second request is made and no
    exception is caught. *)
Theorem operations_pass_through :
  (∀ bucket_name obj_name,
     passes_through s3_client (create_multipart_upload s3_client bucket_name obj_name)
       (CreateMultipartUpload bucket_name obj_name)) ∧
  (∀ body bucket_name object_name kwargs,
     passes_through s3_client (upload_part s3_client body bucket_name object_name kwargs)
       (UploadPart body bucket_name object_name
          (kwargs_get kwargs "upload_id") (kwargs_get kwargs "part_number"))) ∧
  (∀ copy_source bucket_name object_name kwargs,
     passes_through s3_client
       (upload_part_copy s3_client copy_source bucket_name object_name kwargs)
       (UploadPartCopy bucket_name object_name
          (kwargs_get kwargs "upload_id") (kwargs_get kwargs "part_number") copy_source)) ∧
  (∀ mpu_id bucket object_name,
     passes_through s3_client (list_parts s3_client mpu_id bucket object_name)
       (ListParts bucket object_name mpu_id)) ∧
  (∀ mpu_id parts bucket object_name,
     passes_through s3_client
       (complete_multipart_upload s3_client mpu_id parts bucket object_name)
       (CompleteMultipartUpload bucket object_name mpu_id parts)) ∧
  (∀ bucket,
     passes_through s3_client (list_multipart_uploads s3_client bucket)
       (ListMultipartUploads bucket)) ∧
  (∀ bucket object_name upload_id,
     passes_through s3_client (abort_multipart_upload s3_client bucket object_name upload_id)
       (AbortMultipartUpload bucket object_name upload_id)).
Proof.
  repeat split; intros.
  - unfold create_multipart_upload. pass_through.
  - unfold upload_part. pass_through.
  - unfold upload_part_copy. pass_through.
  - unfold list_parts. pass_through.
  - unfold complete_multipart_upload. pass_through.
  - unfold list_multipart_uploads. pass_through.
  - unfold abort_multipart_upload. pass_through.
Qed.

(** C10: the progress observations of [upload_parts] measure the bytes
    uploaded against [multipart_obj_size * 1048576], not against the size
    of the file.  So when the call returns after uploading at least one
    part, its last progress observation counts all [multipart_obj_size]
    bytes of the file as uploaded, out of [multipart_obj_size * 1048576],
    and the percentage it reports is 100/1048576 of a percent point scale,
    that is [size / (size * 1048576)] of 100: never 100. *)
Theorem upload_parts_final_progress
    mpu_id bucket_name object_name path total_parts w content parts w' :
  w_fs w !! path = Some content →
  upload_parts mpu_id bucket_name object_name path total_parts w = (Ok parts, w') →
  parts ≠ [] →
  ∃ evs percent,
    w_trace w' = w_trace w ++ evs ++
      [ ELog ModuleLogger DEBUG
          (LogProgress (len content) (len content * 1048576) percent);
        ELog ModuleLogger INFO (LogDataLen 0);
        EClose path;
        ELog ModuleLogger INFO (LogParts parts) ] ∧
    Forall (λ o, o.1.2 = len content * 1048576) (progress_of evs) ∧
    cal_percent (len content) (len content * 1048576) = Ok percent ∧
    (percent == 100 # 1048576)%Q ∧
    ¬ (percent == 100)%Q.
Proof.
  intros Hpath Hcall Hparts.
  apply upload_parts_ok in Hcall as (content' & rest & wl & Hpath' & _ & Hrun & ->).
  rewrite Hpath in Hpath'. injection Hpath' as <-.
  assert (content ≠ []) as Hne.
  { intros ->. apply run_no_parts in Hrun. done. }
  assert (0 < len content) as Hpos by (destruct content; [done | unfold len; simpl; lia]).
  assert (len content `div` total_parts ≠ 0) as Hp.
  { intros Hz. rewrite Hz in Hrun. apply run_part_size_zero in Hrun as [-> _]. done. }
  pose proof (run_summary _ _ _ _ _ _ _ _ _ _ _ _ _ Hrun)
    as (new & evs0 & _ & Htr0 & _ & _ & _ & _ & _ & Hprog).
  apply run_final_progress in Hrun as (evs & percent & Hpct & Htr); [|done..].
  rewrite Z.add_0_l in Hpct, Htr.
  exists ([EOpen path] ++ evs), percent.
  split; [|split; [|split; [exact Hpct | by apply (final_percent (len content))]]].
  - unfold emit. cbn [w_trace]. rewrite Htr. cbn [emit w_trace].
    rewrite <- !app_assoc. reflexivity.
  - rewrite Htr in Htr0. apply app_inv_head in Htr0. subst evs0.
    rewrite progress_of_app in Hprog. apply Forall_app in Hprog as [Hprog _].
    rewrite progress_of_app. apply Forall_app. split; [constructor | exact Hprog].
Qed.

End Client.

(** A witness for C3: four bytes in two parts on the accepting service. *)
Lemma upload_parts_part_numbers_witness :
  ∃ parts w',
    upload_parts accepting_client (PyStr "upload-1") "bucket" "key" "/data/obj" 2
      (one_file "/data/obj" 4) = (Ok parts, w') ∧
    PartNumber <$> parts = [1; 2] ∧
    PartNumber <$> parts = seqZ 1 (len parts).
Proof.
  exists [Part 1 (PyInt 1); Part 2 (PyInt 2)],
    (upload_parts accepting_client (PyStr "upload-1") "bucket" "key" "/data/obj" 2
       (one_file "/data/obj" 4)).2.
  assert (upload_parts accepting_client (PyStr "upload-1") "bucket" "key" "/data/obj" 2
            (one_file "/data/obj" 4)
          = (Ok [Part 1 (PyInt 1); Part 2 (PyInt 2)],
             (upload_parts accepting_client (PyStr "upload-1") "bucket" "key" "/data/obj" 2
                (one_file "/data/obj" 4)).2)) as Hcall
    by (vm_compute; reflexivity).
  split; [exact Hcall|]. split; [reflexivity|].
  exact (proj1 (upload_parts_part_numbers accepting_client _ _ _ _ _ _ _ _ Hcall)).
Defined.

(** A witness for C4: three bytes asked for in five parts. *)
Lemma upload_parts_more_parts_than_bytes_witness :
  upload_parts accepting_client (PyStr "upload-1") "bucket" "key" "/data/obj" 5
    (one_file "/data/obj" 3)
  = (Ok [],
     {| w_fs := w_fs (one_file "/data/obj" 3); w_client := 0%nat;
        w_trace := [ EOpen "/data/obj"; ELog ModuleLogger INFO (LogDataLen 0);
                     EClose "/data/obj"; ELog ModuleLogger INFO (LogParts []) ] |}).
Proof.
  refine (proj2 (upload_parts_more_parts_than_bytes accepting_client
                   (PyStr "upload-1") "bucket" "key" "/data/obj" 5
                   (one_file "/data/obj" 3) (repeat Byte.x00 3) _ _ _)).
  - reflexivity.
  - discriminate.
  - reflexivity.
Defined.

(** A witness for C5: a path that is not on the disk. *)
Lemma upload_parts_missing_file_witness :
  ∃ e,
    upload_parts accepting_client (PyStr "upload-1") "bucket" "key" "/data/missing" 4
      (one_file "/data/obj" 8) = (Raise e, one_file "/data/obj" 8) ∧
    e = IOError [PyStr "File path '%s' does not exists."; PyStr "/data/missing"] ∧
    class_of e = Some cls_OSError ∧
    isinstance e cls_OSError = Some true ∧
    isinstance e cls_FileNotFoundError = Some false ∧
    parent cls_FileNotFoundError = Some cls_OSError.
Proof. apply upload_parts_missing_file. reflexivity. Defined.

(** C5 as it was stated fails: for a path that is not on the disk the
    exception [upload_parts] raises is not an instance of
    [FileNotFoundError]. *)
Lemma missing_path_error_is_plain_OSError :
  ¬ ∃ e w',
      upload_parts accepting_client (PyStr "upload-1") "bucket" "key" "/data/missing" 4
        (one_file "/data/obj" 8) = (Raise e, w') ∧
      isinstance e cls_FileNotFoundError = Some true.
Proof.
  intros (e & w' & Hcall & Hinstance).
  assert (upload_parts accepting_client (PyStr "upload-1") "bucket" "key" "/data/missing" 4
            (one_file "/data/obj" 8)
          = (Raise (IOError [PyStr "File path '%s' does not exists.";
                             PyStr "/data/missing"]),
             one_file "/data/obj" 8)) as Hraised by reflexivity.
  rewrite Hraised in Hcall. injection Hcall as <- _.
  discriminate Hinstance.
Qed.

(** A witness for C10: four bytes in two parts; the last observation reads
    4 of 4194304. *)
Lemma upload_parts_final_progress_witness :
  ∃ evs percent,
    w_trace (upload_parts accepting_client (PyStr "upload-1") "bucket" "key" "/data/obj" 2
               (one_file "/data/obj" 4)).2
    = w_trace (one_file "/data/obj" 4) ++ evs ++
        [ ELog ModuleLogger DEBUG (LogProgress 4 4194304 percent);
          ELog ModuleLogger INFO (LogDataLen 0);
          EClose "/data/obj";
          ELog ModuleLogger INFO (LogParts [Part 1 (PyInt 1); Part 2 (PyInt 2)]) ] ∧
    (percent == 100 # 1048576)%Q ∧
    ¬ (percent == 100)%Q.
Proof.
  destruct (upload_parts_final_progress accepting_client
              (PyStr "upload-1") "bucket" "key" "/data/obj" 2
              (one_file "/data/obj" 4) (repeat Byte.x00 4)
              [Part 1 (PyInt 1); Part 2 (PyInt 2)]
              (upload_parts accepting_client (PyStr "upload-1") "bucket" "key" "/data/obj" 2
                 (one_file "/data/obj" 4)).2)
    as (evs & percent & Htr & _ & _ & Heq & Hne).
  - reflexivity.
  - vm_compute. reflexivity.
  - discriminate.
  - exists evs, percent. split; [exact Htr|]. split; [exact Heq | exact Hne].
Defined.

(** C1, where the code departs from it: a file of 10 bytes asked for in 3
    parts has a part size of 3, and the loop uploads 4 parts, of 3, 3, 3
    and 1 bytes; the claim has 3 parts, of 3, 3 and 4 bytes. *)
Theorem upload_parts_ten_bytes_in_three :
  (upload_parts accepting_client (PyStr "upload-1") "bucket" "key" "/data/obj" 3
     (one_file "/data/obj" 10)).1
  = Ok [Part 1 (PyInt 1); Part 2 (PyInt 2); Part 3 (PyInt 3); Part 4 (PyInt 4)] ∧
  len <$> bodies_of
    (w_trace (upload_parts accepting_client (PyStr "upload-1") "bucket" "key" "/data/obj" 3
                (one_file "/data/obj" 10)).2)
  = [3; 3; 3; 1].
Proof. split; vm_compute; reflexivity. Qed.

(** C2, where the code departs from it: of a file of 3 bytes asked for in
    5 parts nothing is read and nothing is uploaded; the bytes uploaded sum
    to 0, not to the 3 bytes of the file. *)
Theorem upload_parts_three_bytes_in_five :
  len <$> w_fs (one_file "/data/obj" 3) !! "/data/obj" = Some 3 ∧
  (upload_parts accepting_client (PyStr "upload-1") "bucket" "key" "/data/obj" 5
     (one_file "/data/obj" 3)).1 = Ok [] ∧
  len (concat (bodies_of
    (w_trace (upload_parts accepting_client (PyStr "upload-1") "bucket" "key" "/data/obj" 5
                (one_file "/data/obj" 3)).2))) = 0.
Proof. repeat split; vm_compute; reflexivity. Qed.

(** C6, where the code departs from it: with 2 bytes asked for in 4 parts
    the loop is left on its first read, which asks for 0 bytes: no
    exception, no part, and [upload_parts] returns the empty list; but the
    file pointer is not at the end of the file, both bytes are still
    unread. *)
Theorem upload_loop_two_bytes_in_four :
  w_fs (one_file "/data/obj" 2) !! "/data/obj" = Some [Byte.x00; Byte.x00] ∧
  upload_loop accepting_client (PyStr "upload-1") "bucket" "key" 2 (2 `div` 4)
    [Byte.x00; Byte.x00] 1 [] 0 (emit (EOpen "/data/obj") (one_file "/data/obj" 2))
  = (Ok [], [Byte.x00; Byte.x00],
     emit (ELog ModuleLogger INFO (LogDataLen 0))
       (emit (EOpen "/data/obj") (one_file "/data/obj" 2))) ∧
  (upload_parts accepting_client (PyStr "upload-1") "bucket" "key" "/data/obj" 4
     (one_file "/data/obj" 2)).1 = Ok [].
Proof. repeat split; vm_compute; reflexivity. Qed.

End S3Facts.

(** ** The run managers *)

Module DiFacts.
Import Di.

Section Collaborators.

Context {pyobj ext_state : Type}.
Variable Uploader : ext_state → result pyobj * ext_state.
Variable uploader_start : pyobj → call_shape pyobj → ext_state → result unit * ext_state.
Variable uploader_stop : pyobj → ext_state → result unit * ext_state.
Variable verify_data_integrity : ext_state → result unit * ext_state.

Implicit Types (w : world (pyobj := pyobj) (ext_state := ext_state)).

Local Abbreviation thread_join := (Di.thread_join uploader_start).
Local Abbreviation stop_io_async := (Di.stop_io_async uploader_start verify_data_integrity).
Local Abbreviation RunDataCheckManager := (Di.RunDataCheckManager (pyobj := pyobj) Uploader).

(** Every failure to bind arguments is a [TypeError]. *)
Lemma bind_arguments_raises {V} fname params (args : list V) kwargs e :
  bind_arguments fname params args kwargs = Raise e → ∃ why, e = TypeError why.
Proof.
  unfold bind_arguments.
  destruct (bind_keywords _ _ _ _); [intros [= <-]; eauto|].
  destruct (decide _); [intros [= <-]; eauto|].
  destruct (filter _ (drop _ _)); [discriminate|intros [= <-]; eauto].
Qed.

(** The call [super().__init__(users=users)] leaves [upload_cls] without a
    value. *)
Lemma super_init_unbound (users : pyobj) :
  bind_arguments "__init__" ASyncIO___init___params [] [("users", users)]
  = Raise (TypeError (MissingArguments "__init__" ["upload_cls"])).
Proof. reflexivity. Qed.

(** The two well-formed calls of [RunDataCheckManager] bind [users]. *)
Lemma init_binds_users (args : list pyobj) kwargs users :
  args = [users] ∧ kwargs = [] ∨ args = [] ∧ kwargs = [("users", users)] →
  bind_arguments "__init__" RunDataCheckManager___init___params args kwargs
  = Ok (<["users" := users]> ∅).
Proof. by intros [[-> ->]|[-> ->]]. Qed.

(** Joining a started thread without a timeout returns with the thread
    terminated, whatever the outcome of its workload. *)
Lemma thread_join_terminates w t :
  started w t →
  ∃ wj,
    thread_join t None w = (Ok tt, wj) ∧
    terminated wj t ∧
    w_self wj = w_self w ∧
    w_trace wj = w_trace w ++ [EThreadJoin t None].
Proof.
  intros (th & Hth & Hstatus). unfold Di.thread_join. rewrite Hth.
  destruct (t_status th) as [| |outcome] eqn:Hst; [done| |].
  - destruct (uploader_start _ _ _) as [outcome st] eqn:Hrun.
    eexists. split; [reflexivity|]. split; [|done].
    eexists _, outcome.
    split; [cbn [emit set_status w_threads];
            rewrite list_lookup_alter_eq, Hth; reflexivity | reflexivity].
  - eexists. split; [reflexivity|]. split; [|done].
    by exists th, outcome.
Qed.

(** Without a worker thread there is nothing to join: [stop_io_async] on a
    manager that has not been through [start_io_async] raises, and neither
    joins nor verifies. *)
Lemma stop_io_async_without_worker (di_check : bool) w :
  bg_thread (w_self w) = None →
  stop_io_async di_check w
  = (Raise (AttributeError "'NoneType' object has no attribute 'join'"), w).
Proof.
  intros Hbg. unfold Di.stop_io_async, get_bg_thread, mbind, M_bind. by rewrite Hbg.
Qed.

(** C8: on a manager whose worker thread has been started,
    [stop_io_async] first joins that thread, without a timeout, and the
    join returns with the thread terminated whatever became of the
    workload; only then, and only when [di_check] is set, the integrity
    verification is called, and its outcome, a failure included, is the
    outcome of [stop_io_async]. *)
Theorem stop_io_async_joins_then_verifies (di_check : bool) w t :
  bg_thread (w_self w) = Some t →
  started w t →
  ∃ wj,
    thread_join t None w = (Ok tt, wj) ∧
    terminated wj t ∧
    w_trace wj = w_trace w ++ [EThreadJoin t None] ∧
    stop_io_async di_check w =
      if di_check
      then ((verify_data_integrity (w_ext wj)).1,
            {| w_self := w_self wj; w_ext := (verify_data_integrity (w_ext wj)).2;
               w_threads := w_threads wj; w_trace := w_trace wj ++ [EVerify] |})
      else (Ok tt, wj).
Proof.
  intros Hbg Hstarted.
  destruct (thread_join_terminates w t Hstarted) as (wj & Hjoin & Hterm & Hself & Htr).
  exists wj. repeat split; try done.
  unfold Di.stop_io_async, get_bg_thread, mbind, M_bind. rewrite Hbg, Hjoin.
  destruct di_check; [|reflexivity].
  unfold external. by destruct (verify_data_integrity (w_ext wj)).
Qed.

(** C9: a call of the class [RunDataCheckManager] never yields an instance.
    Whatever the arguments, once [uploader.Uploader()] has returned the
    call ends in a [TypeError]; with the one argument [users] that its
    [__init__] asks for, the [TypeError] is the one of the parent's
    [__init__], called with [users] alone and left without a value for
    [upload_cls]. *)
Theorem RunDataCheckManager_never_constructed args kwargs w :
  (∀ obj w', RunDataCheckManager args kwargs w ≠ (Ok obj, w')) ∧
  (∀ u st, Uploader (w_ext w) = (Ok u, st) →
     ∃ why w', RunDataCheckManager args kwargs w = (Raise (TypeError why), w')) ∧
  (∀ u st users, Uploader (w_ext w) = (Ok u, st) →
     args = [users] ∧ kwargs = [] ∨ args = [] ∧ kwargs = [("users", users)] →
     ∃ w', RunDataCheckManager args kwargs w
           = (Raise (TypeError (MissingArguments "__init__" ["upload_cls"])), w')).
Proof.
  assert (∀ users w0,
    (∀ w', Di.RunDataCheckManager___init__ Uploader users w0 ≠ (Ok tt, w')) ∧
    (∀ u st, Uploader (w_ext w0) = (Ok u, st) →
       ∃ w', Di.RunDataCheckManager___init__ Uploader users w0
             = (Raise (TypeError (MissingArguments "__init__" ["upload_cls"])), w')))
    as Hinit.
  { intros users w0.
    unfold Di.RunDataCheckManager___init__, call_ASyncIO___init__, external, set_self, lift,
      mbind, M_bind.
    rewrite super_init_unbound. cbn [w_ext].
    destruct (Uploader (w_ext w0)) as [[u|e] st]; split; try done.
    intros ? ? _. eauto. }
  unfold Di.RunDataCheckManager, call_RunDataCheckManager___init__, set_self, lift, get_self,
    mbind, M_bind, mthrow, M_throw.
  destruct (bind_arguments _ _ args kwargs) as [bound|e] eqn:Hbind.
  - destruct (bound !! "users") as [users|] eqn:Husers.
    + destruct (Hinit users
        {| w_self := blank; w_ext := w_ext w; w_threads := w_threads w;
           w_trace := w_trace w |}) as [Hnever Htype].
      split; [|split].
      * intros obj w'.
        destruct (Di.RunDataCheckManager___init__ _ _ _) as [[[]|e] w1] eqn:Hcall;
          [by destruct (Hnever w1) | done].
      * intros u st Hup. destruct (Htype u st Hup) as [w1 ->]. eauto.
      * intros u st users' Hup _. destruct (Htype u st Hup) as [w1 ->]. eauto.
    + split; [done|]. split; [eauto|].
      intros u st users _ Hcall. rewrite (init_binds_users _ _ _ Hcall) in Hbind.
      injection Hbind as <-. by rewrite lookup_insert_eq in Husers.
  - pose proof (bind_arguments_raises _ _ _ _ _ Hbind) as [why ->].
    split; [done|]. split; [eauto|].
    intros u st users _ Hcall. by rewrite (init_binds_users _ _ _ Hcall) in Hbind.
Qed.

End Collaborators.

(** A manager whose worker runs the failing workload, a witness for C8: the
    join still returns with the thread terminated, and the verifier's
    failure comes back from [stop_io_async]. *)
Lemma stop_io_async_joins_then_verifies_witness :
  ∃ wj,
    thread_join failing_workload 0 None running_manager = (Ok tt, wj) ∧
    terminated wj 0 ∧
    w_trace wj = w_trace running_manager ++ [EThreadJoin 0 None] ∧
    stop_io_async failing_workload failing_verifier true running_manager =
      ((failing_verifier (w_ext wj)).1,
       {| w_self := w_self wj; w_ext := (failing_verifier (w_ext wj)).2;
          w_threads := w_threads wj; w_trace := w_trace wj ++ [EVerify] |}).
Proof.
  apply (stop_io_async_joins_then_verifies failing_workload failing_verifier true
           running_manager 0%nat).
  - reflexivity.
  - eexists. split; [reflexivity | discriminate].
Defined.

(** A witness for C9: built with the one argument it asks for, on
    collaborators whose uploader can be built, the class raises the
    [TypeError] of the parent's [__init__]. *)
Lemma RunDataCheckManager_never_constructed_witness :
  ∃ w', RunDataCheckManager build_uploader ["users"] [] fresh_manager
        = (Raise (TypeError (MissingArguments "__init__" ["upload_cls"])), w').
Proof.
  apply (proj2 (proj2 (RunDataCheckManager_never_constructed build_uploader
                         ["users"] [] fresh_manager))
           "uploader" ["Uploader()"] "users").
  - reflexivity.
  - left. split; reflexivity.
Defined.

End DiFacts.

(** ** More on the multipart coordinator: failures, the file, the service *)

Module S3Extra.
Import S3 S3Facts.

Section Client.

Context {client_state : Type}.
Variable s3_client : s3_call → client_state → result response * client_state.

Implicit Types (w : world (client_state := client_state)).
Implicit Types (fp data rest : list byte) (parts : list part).

Local Abbreviation upload_loop := (S3.upload_loop s3_client).
Local Abbreviation upload_chunk := (S3.upload_chunk s3_client).
Local Abbreviation upload_parts := (S3.upload_parts s3_client).
Local Abbreviation run := (S3.run s3_client).

Lemma file_events_app tr1 tr2 : file_events (tr1 ++ tr2) = file_events tr1 ++ file_events tr2.
Proof.
  induction tr1 as [|[] tr1 IH]; simpl; try done; by rewrite IH.
Qed.

(** One turn of the loop, however it ends: one request, the upload of the
    chunk as part [i]; the file system is not touched and no file is opened
    or closed; the client is left as the request left it. *)
Lemma upload_chunk_frame mpu_id bucket_name object_name size data i parts ub w r w' :
  upload_chunk mpu_id bucket_name object_name size data i parts ub w = (r, w') →
  w_fs w' = w_fs w ∧
  w_client w' = (s3_client (UploadPart data bucket_name object_name mpu_id (PyInt i))
                   (w_client w)).2 ∧
  ∃ evs,
    w_trace w' = w_trace w ++ evs ∧
    calls_of evs = [UploadPart data bucket_name object_name mpu_id (PyInt i)] ∧
    file_events evs = [].
Proof.
  unfold S3.upload_chunk, upload_part, request, log, getitem, lift.
  rewrite kwargs_upload_id, kwargs_part_number.
  unfold mbind, M_bind, mret, M_ret, mthrow, M_throw. cbn [emit w_trace w_fs w_client].
  destruct (s3_client _ _) as [[resp|e] st].
  - cbn [emit w_trace w_fs w_client].
    destruct (resp !! "ETag") as [etag|]; cbn [emit w_trace w_fs w_client].
    + destruct (cal_percent _ _) as [percent|e]; intros [= <- <-];
        cbn [emit w_trace w_fs w_client snd]; (split; [done|]); (split; [done|]);
        rewrite <- ?app_assoc; eexists; (split; [reflexivity|]); done.
    + intros [= <- <-]. cbn [emit w_trace w_fs w_client snd].
      split; [done|]. split; [done|].
      rewrite <- ?app_assoc. eexists. split; [reflexivity|]. done.
  - intros [= <- <-]. cbn [emit w_trace w_fs w_client snd].
    split; [done|]. split; [done|]. eexists. split; [reflexivity|]. done.
Qed.

(** Why a turn of the loop raises: the client refused the part, or its
    answer has no [ETag], or the progress total is zero. *)
Lemma upload_chunk_raise mpu_id bucket_name object_name size data i parts ub w e w' :
  upload_chunk mpu_id bucket_name object_name size data i parts ub w = (Raise e, w') →
  (s3_client (UploadPart data bucket_name object_name mpu_id (PyInt i)) (w_client w)).1
    = Raise e ∨
  (e = KeyError "ETag" ∧
   ∃ resp,
     (s3_client (UploadPart data bucket_name object_name mpu_id (PyInt i)) (w_client w)).1
       = Ok resp ∧ resp !! "ETag" = None) ∨
  (e = ZeroDivisionError ∧ size * 1048576 = 0).
Proof.
  unfold S3.upload_chunk, upload_part, request, log, getitem, lift.
  rewrite kwargs_upload_id, kwargs_part_number.
  unfold mbind, M_bind, mret, M_ret, mthrow, M_throw. cbn [emit w_trace w_fs w_client].
  destruct (s3_client _ _) as [[resp|e0] st]; cbn [fst].
  - cbn [emit w_trace w_fs w_client].
    destruct (resp !! "ETag") as [etag|] eqn:Hetag; cbn [emit w_trace w_fs w_client].
    + unfold cal_percent. destruct (decide (size * 1048576 = 0)); [|discriminate].
      intros [= <- <-]. right. right. done.
    + intros [= <- <-]. right. left. split; [done|]. by exists resp.
  - intros [= <- <-]. by left.
Qed.

Lemma file_read_raise p fp e :
  file_read p fp = Raise e →
  p < -1 ∧ e = ValueError "read length must be non-negative or -1".
Proof.
  unfold file_read. destruct (decide (p < -1)); [by intros [= <-]|].
  by destruct (decide (p = -1)).
Qed.

(** The loop, however it ends: it leaves the file system alone, opens and
    closes nothing, and every request it sends is the upload of a part to
    the upload it was given. *)
Lemma upload_loop_frame mpu_id bucket_name object_name size p fp i parts ub w r rest' w' :
  upload_loop mpu_id bucket_name object_name size p fp i parts ub w = (r, rest', w') →
  w_fs w' = w_fs w ∧
  ∃ evs,
    w_trace w' = w_trace w ++ evs ∧
    Forall (is_upload_to bucket_name object_name mpu_id) (calls_of evs) ∧
    file_events evs = [].
Proof.
  remember (length fp) as n eqn:Hn.
  revert fp i parts ub w Hn.
  induction n as [n IH] using lt_wf_ind. intros fp i parts ub w -> Hloop.
  rewrite upload_loop_unfold in Hloop.
  destruct (file_read p fp) as [[[|b data] rest]|e] eqn:Hread.
  - injection Hloop as <- <- <-. split; [done|].
    exists [ELog ModuleLogger INFO (LogDataLen 0)]. by repeat split.
  - destruct (upload_chunk _ _ _ _ _ _ _ _ _) as [[[parts1 ub1]|e] w1] eqn:Hchunk.
    + apply upload_chunk_frame in Hchunk as (Hfs1 & _ & evs1 & Htr1 & Hcalls1 & Hfile1).
      eapply IH in Hloop as (Hfs2 & evs2 & Htr2 & Hcalls2 & Hfile2);
        [|eapply file_read_shrinks, Hread|reflexivity].
      split; [by rewrite Hfs2, Hfs1|].
      exists ([ELog ModuleLogger INFO (LogDataLen (len (b :: data)))] ++ evs1 ++ evs2).
      split; [|split].
      * rewrite Htr2, Htr1. cbn [emit w_trace]. by rewrite <- !app_assoc.
      * rewrite !calls_of_app, Hcalls1. cbn [calls_of app].
        constructor; [by eexists _, _ | exact Hcalls2].
      * rewrite !file_events_app, Hfile1, Hfile2. done.
    + injection Hloop as <- <- <-.
      apply upload_chunk_frame in Hchunk as (Hfs1 & _ & evs1 & Htr1 & Hcalls1 & Hfile1).
      split; [exact Hfs1|].
      exists ([ELog ModuleLogger INFO (LogDataLen (len (b :: data)))] ++ evs1).
      split; [|split].
      * rewrite Htr1. cbn [emit w_trace]. by rewrite <- !app_assoc.
      * rewrite calls_of_app, Hcalls1. cbn [calls_of app].
        constructor; [by eexists _, _ | constructor].
      * rewrite file_events_app, Hfile1. done.
  - injection Hloop as <- <- <-. split; [done|].
    exists []. rewrite app_nil_r. by repeat split.
Qed.

(** Why the loop raises, when the file is not empty: the part size is below
    -1 and the first read is refused, before anything is sent; or the last
    request sent was refused by the client; or the answer to the last
    request sent has no [ETag].  In the last two cases the client is left
    as that request left it: nothing is sent after a failure. *)
Lemma upload_loop_raise mpu_id bucket_name object_name size p fp i parts ub w e rest' w' :
  size ≠ 0 →
  upload_loop mpu_id bucket_name object_name size p fp i parts ub w = (Raise e, rest', w') →
  (p < -1 ∧ e = ValueError "read length must be non-negative or -1" ∧ w' = w) ∨
  ∃ evs c st,
    w_trace w' = w_trace w ++ evs ∧
    last (calls_of evs) = Some c ∧
    is_upload_to bucket_name object_name mpu_id c ∧
    w_client w' = (s3_client c st).2 ∧
    ((s3_client c st).1 = Raise e ∨
     (e = KeyError "ETag" ∧ ∃ resp, (s3_client c st).1 = Ok resp ∧ resp !! "ETag" = None)).
Proof.
  intros Hsize.
  remember (length fp) as n eqn:Hn.
  revert fp i parts ub w Hn.
  induction n as [n IH] using lt_wf_ind. intros fp i parts ub w -> Hloop.
  rewrite upload_loop_unfold in Hloop.
  destruct (file_read p fp) as [[[|b data] rest]|e0] eqn:Hread.
  - discriminate.
  - destruct (upload_chunk _ _ _ _ _ _ _ _ _) as [[[parts1 ub1]|e1] w1] eqn:Hchunk.
    + pose proof (upload_chunk_frame _ _ _ _ _ _ _ _ _ _ _ Hchunk)
        as (_ & _ & evs1 & Htr1 & Hcalls1 & _).
      eapply IH in Hloop as [(Hp & _ & _)|(evs & c & st & Htr & Hlast & Hup & Hcl & Hwhy)];
        [| |eapply file_read_shrinks, Hread|reflexivity].
      * unfold file_read in Hread. by destruct (decide (p < -1)).
      * right.
        exists ([ELog ModuleLogger INFO (LogDataLen (len (b :: data)))] ++ evs1 ++ evs), c, st.
        split; [|split; [|done]].
        -- rewrite Htr, Htr1. cbn [emit w_trace]. by rewrite <- !app_assoc.
        -- rewrite !calls_of_app, !last_app, Hlast. done.
    + injection Hloop as <- <- <-. right.
      pose proof (upload_chunk_frame _ _ _ _ _ _ _ _ _ _ _ Hchunk)
        as (_ & Hcl & evs1 & Htr1 & Hcalls1 & _).
      apply upload_chunk_raise in Hchunk as [Hwhy|[Hwhy|[_ Hzero]]]; [| |lia].
      all: exists ([ELog ModuleLogger INFO (LogDataLen (len (b :: data)))] ++ evs1),
             (UploadPart (b :: data) bucket_name object_name mpu_id (PyInt i)), (w_client w).
      all: split; [rewrite Htr1; cbn [emit w_trace]; by rewrite <- !app_assoc|].
      all: split; [by rewrite calls_of_app, Hcalls1|].
      all: split; [by eexists _, _|].
      all: split; [exact Hcl|].
      * by left.
      * by right.
  - injection Hloop as <- <- <-. left.
    apply file_read_raise in Hread as [Hp ->]. done.
Qed.

(** X2: whatever its arguments and however it ends, [upload_parts] leaves
    the local file system as it found it, and every request it sends is
    the upload of a part, with a number, to the bucket, key and upload id
    it was given: it never lists, completes or aborts. *)
Theorem upload_parts_only_uploads
    mpu_id bucket_name object_name path total_parts w r w' :
  upload_parts mpu_id bucket_name object_name path total_parts w = (r, w') →
  w_fs w' = w_fs w ∧
  ∃ evs,
    w_trace w' = w_trace w ++ evs ∧
    Forall (is_upload_to bucket_name object_name mpu_id) (calls_of evs).
Proof.
  unfold S3.upload_parts.
  destruct (w_fs w !! path) as [content|].
  2:{ intros [= <- <-]. split; [done|]. exists []. by rewrite app_nil_r. }
  destruct (decide (total_parts = 0)).
  { intros [= <- <-]. split; [done|]. exists []. by rewrite app_nil_r. }
  destruct (upload_loop _ _ _ _ _ _ _ _ _ _) as [[r1 rest] wl] eqn:Hloop.
  apply upload_loop_frame in Hloop as (Hfs & evs & Htr & Hcalls & _).
  cbn [emit w_trace w_fs] in Htr, Hfs.
  destruct r1 as [parts|e]; intros [= <- <-].
  - unfold mbind, M_bind, log, mret, M_ret. cbn [emit w_trace w_fs].
    split; [exact Hfs|].
    exists ([EOpen path] ++ evs ++ [EClose path; ELog ModuleLogger INFO (LogParts parts)]).
    split; [rewrite Htr; by rewrite <- !app_assoc|].
    rewrite !calls_of_app. cbn [calls_of app]. by rewrite app_nil_r.
  - cbn [emit w_trace w_fs]. split; [exact Hfs|].
    exists ([EOpen path] ++ evs ++ [EClose path]).
    split; [rewrite Htr; by rewrite <- !app_assoc|].
    rewrite !calls_of_app. cbn [calls_of app]. by rewrite app_nil_r.
Qed.

(** X3: once the path exists and [total_parts] is not zero, [upload_parts]
    opens the file once, before any request, and closes it once, after the
    last request, whether the loop returns or raises; only the log of the
    returned parts comes after the closing. *)
Theorem upload_parts_closes_file
    mpu_id bucket_name object_name path total_parts w content r w' :
  w_fs w !! path = Some content →
  total_parts ≠ 0 →
  upload_parts mpu_id bucket_name object_name path total_parts w = (r, w') →
  ∃ evs,
    file_events evs = [] ∧
    w_trace w' = w_trace w ++ [EOpen path] ++ evs ++ [EClose path] ++
      match r with
      | Ok parts => [ELog ModuleLogger INFO (LogParts parts)]
      | Raise _ => []
      end.
Proof.
  intros Hpath Hn. unfold S3.upload_parts. rewrite Hpath.
  destruct (decide (total_parts = 0)); [done|].
  destruct (upload_loop _ _ _ _ _ _ _ _ _ _) as [[r1 rest] wl] eqn:Hloop.
  apply upload_loop_frame in Hloop as (_ & evs & Htr & _ & Hfile).
  cbn [emit w_trace] in Htr.
  destruct r1 as [parts|e]; intros [= <- <-]; exists evs; (split; [exact Hfile|]).
  - unfold mbind, M_bind, log, mret, M_ret. cbn [emit w_trace].
    rewrite Htr. by rewrite <- !app_assoc.
  - cbn [emit w_trace]. rewrite Htr, app_nil_r. by rewrite <- !app_assoc.
Qed.

(** X4: the reasons for which [upload_parts] raises, and no others: the
    path is missing; [total_parts] is zero; the part size is below -1
    (a negative [total_parts]) and the first read is refused; the client
    refused an upload; the client's answer to an upload has no [ETag].
    In the first two cases nothing has happened; in the third the file was
    opened and closed and nothing sent; in the last two the failing request
    is the last one sent, and the client is as that request left it. *)
Theorem upload_parts_failure_causes
    mpu_id bucket_name object_name path total_parts w e w' :
  upload_parts mpu_id bucket_name object_name path total_parts w = (Raise e, w') →
  (w_fs w !! path = None ∧
   e = IOError [PyStr "File path '%s' does not exists."; PyStr path] ∧ w' = w) ∨
  (is_Some (w_fs w !! path) ∧ total_parts = 0 ∧ e = ZeroDivisionError ∧ w' = w) ∨
  (total_parts < 0 ∧
   e = ValueError "read length must be non-negative or -1" ∧
   w' = emit (EClose path) (emit (EOpen path) w)) ∨
  ∃ evs c st,
    w_trace w' = w_trace w ++ evs ∧
    last (calls_of evs) = Some c ∧
    is_upload_to bucket_name object_name mpu_id c ∧
    w_client w' = (s3_client c st).2 ∧
    ((s3_client c st).1 = Raise e ∨
     (e = KeyError "ETag" ∧ ∃ resp, (s3_client c st).1 = Ok resp ∧ resp !! "ETag" = None)).
Proof.
  unfold S3.upload_parts.
  destruct (w_fs w !! path) as [content|] eqn:Hpath.
  2:{ intros [= <- <-]. by left. }
  destruct (decide (total_parts = 0)) as [Hz|Hnz].
  { intros [= <- <-]. right. left. by repeat split. }
  destruct (upload_loop _ _ _ _ _ _ _ _ _ _) as [[[parts|e1] rest] wl] eqn:Hloop;
    [discriminate|].
  intros [= <- <-]. right. right.
  destruct (decide (len content = 0)) as [Hempty|Hsize].
  { (* an empty file is read at once *)
    rewrite upload_loop_unfold in Hloop.
    assert (content = []) as -> by (destruct content; [done | unfold len in Hempty; simpl in Hempty; lia]).
    change (len (@nil byte)) with 0 in Hloop. rewrite Z.div_0_l in Hloop by done.
    rewrite file_read_zero in Hloop. discriminate. }
  apply upload_loop_raise in Hloop
    as [(Hp & -> & ->)|(evs & c & st & Htr & Hlast & Hup & Hcl & Hwhy)]; [| |done].
  - left. split; [|done].
    destruct (decide (total_parts < 0)); [done|].
    pose proof (Z.div_pos (len content) total_parts). unfold len in *. lia.
  - right. exists ([EOpen path] ++ evs ++ [EClose path]), c, st.
    cbn [emit w_trace w_client] in *.
    split; [rewrite Htr; by rewrite <- !app_assoc|].
    split; [|done].
    rewrite !calls_of_app, !last_app. cbn [calls_of last]. by rewrite Hlast.
Qed.

(** The chunks of a call that returns, for a file with at least one byte
    per requested part. *)
Lemma upload_parts_chunks
    mpu_id bucket_name object_name path total_parts w content parts w' :
  1 ≤ total_parts ≤ len content →
  w_fs w !! path = Some content →
  upload_parts mpu_id bucket_name object_name path total_parts w = (Ok parts, w') →
  ∃ evs,
    w_trace w' = w_trace w ++ evs ∧
    concat (bodies_of evs) = content ∧
    length parts = length (bodies_of evs) ∧
    length parts
      = Z.to_nat ((len content + len content `div` total_parts - 1)
                    `div` (len content `div` total_parts)) ∧
    Forall (λ body, 1 ≤ len body ≤ len content `div` total_parts) (bodies_of evs).
Proof.
  intros Hn Hpath Hcall.
  apply upload_parts_ok in Hcall as (content' & rest & wl & Hpath' & _ & Hrun & ->).
  rewrite Hpath in Hpath'. injection Hpath' as <-.
  assert (1 ≤ len content `div` total_parts) as Hp
    by (apply Z.div_le_lower_bound; lia).
  pose proof (run_reads_all _ _ _ _ _ _ _ _ _ _ _ _ _ _ Hp Hrun) as ->.
  destruct (run_summary _ _ _ _ _ _ _ _ _ _ _ _ _ _ Hrun)
    as (new & evs & Hnew & Htr & _ & _ & Hcalls & Hbodies & Hcat & _).
  destruct (run_chunk_sizes _ _ _ _ _ _ _ _ _ _ _ _ _ _ Hp Hrun)
    as (evs' & Htr' & Hcount & Hsizes).
  rewrite Htr in Htr'. apply app_inv_head in Htr'. subst evs'.
  simpl in Hnew. subst new. rewrite app_nil_r in Hcat.
  assert (length parts = length (bodies_of evs)) as Hlen.
  { rewrite <- (length_fmap (λ part, Some (PyInt (PartNumber part))) parts), <- Hcalls.
    rewrite <- (length_fmap Some (bodies_of evs)), <- Hbodies.
    by rewrite !length_fmap. }
  exists ([EOpen path] ++ evs ++ [EClose path; ELog ModuleLogger INFO (LogParts parts)]).
  assert (bodies_of ([EOpen path] ++ evs ++
            [EClose path; ELog ModuleLogger INFO (LogParts parts)]) = bodies_of evs) as ->.
  { rewrite !bodies_of_app.
    change (bodies_of [EOpen path]) with (@nil (list byte)).
    change (bodies_of [EClose path; ELog ModuleLogger INFO (LogParts parts)])
      with (@nil (list byte)).
    by rewrite app_nil_r. }
  split; [|split; [exact Hcat|split; [exact Hlen|split; [by rewrite Hlen|]]]].
  - cbn [emit w_trace]. rewrite Htr. cbn [emit w_trace].
    by rewrite <- !app_assoc.
  - apply Forall_lookup. intros k body Hk. by apply (Hsizes k body).
Qed.

Lemma concat_len_bound (q : Z) (bodies : list (list byte)) :
  Forall (λ body, len body ≤ q) bodies → len (concat bodies) ≤ len bodies * q.
Proof.
  induction 1 as [|body bodies Hbody _ IH]; [done|].
  cbn [concat]. unfold len in *. rewrite length_app. cbn [length].
  rewrite Nat2Z.inj_add, Nat2Z.inj_succ. lia.
Qed.

(** Chunks of at most [q] bytes that add up to [q] bytes each have exactly
    [q] bytes. *)
Lemma full_chunks (q : Z) (bodies : list (list byte)) :
  Forall (λ body, len body ≤ q) bodies →
  len (concat bodies) = len bodies * q →
  Forall (λ body, len body = q) bodies.
Proof.
  induction 1 as [|body bodies Hbody Hrest IH]; [done|]. intros Hsum.
  pose proof (concat_len_bound q bodies Hrest) as Hbound.
  cbn [concat] in Hsum. unfold len in *. rewrite length_app in Hsum. cbn [length] in Hsum.
  rewrite Nat2Z.inj_add, Nat2Z.inj_succ in Hsum.
  constructor; [lia|]. apply IH. lia.
Qed.

(** X5: when [total_parts] divides the size of the file, [upload_parts]
    uploads exactly [total_parts] parts of [size / total_parts] bytes each,
    which together are the content of the file. *)
Theorem upload_parts_even_split
    mpu_id bucket_name object_name path total_parts q w content parts w' :
  1 ≤ total_parts → 1 ≤ q →
  len content = total_parts * q →
  w_fs w !! path = Some content →
  upload_parts mpu_id bucket_name object_name path total_parts w = (Ok parts, w') →
  length parts = Z.to_nat total_parts ∧
  ∃ evs,
    w_trace w' = w_trace w ++ evs ∧
    length (bodies_of evs) = Z.to_nat total_parts ∧
    Forall (λ body, len body = q) (bodies_of evs) ∧
    concat (bodies_of evs) = content.
Proof.
  intros Hn Hq Hsize Hpath Hcall.
  assert (len content `div` total_parts = q) as Hp
    by (rewrite Hsize, Z.mul_comm; apply Z.div_mul; lia).
  assert (1 ≤ total_parts ≤ len content) as Hrange by nia.
  destruct (upload_parts_chunks _ _ _ _ _ _ _ _ _ Hrange Hpath Hcall)
    as (evs & Htr & Hcat & Hlen & Hcount & Hsizes).
  rewrite Hp in Hcount, Hsizes.
  assert ((len content + q - 1) `div` q = total_parts) as Hdiv.
  { replace (len content + q - 1) with (total_parts * q + (q - 1)) by lia.
    rewrite Z.div_add_l by lia. rewrite Z.div_small by lia. lia. }
  rewrite Hdiv in Hcount.
  split; [exact Hcount|]. exists evs.
  split; [exact Htr|]. split; [by rewrite <- Hlen|]. split; [|exact Hcat].
  apply full_chunks.
  - eapply Forall_impl; [exact Hsizes|]. simpl. lia.
  - rewrite Hcat, Hsize. unfold len. rewrite <- Hlen, Hcount. lia.
Qed.

(** X6: an empty file is uploaded as no part at all, whatever the (non-zero)
    number of parts asked for: the first read, of zero bytes, comes back
    empty, no request is sent and the empty list is returned. *)
Theorem upload_parts_empty_file mpu_id bucket_name object_name path total_parts w :
  w_fs w !! path = Some [] →
  total_parts ≠ 0 →
  upload_parts mpu_id bucket_name object_name path total_parts w
  = (Ok [],
     {| w_fs := w_fs w; w_client := w_client w;
        w_trace := w_trace w ++
          [ EOpen path; ELog ModuleLogger INFO (LogDataLen 0);
            EClose path; ELog ModuleLogger INFO (LogParts []) ] |}).
Proof.
  intros Hpath Hn. unfold S3.upload_parts. rewrite Hpath.
  destruct (decide (total_parts = 0)); [done|].
  change (len (@nil byte)) with 0. rewrite Z.div_0_l by done.
  rewrite upload_loop_unfold, file_read_zero.
  unfold mbind, M_bind, log, mret, M_ret, emit. cbn [w_trace w_fs w_client].
  by rewrite <- !app_assoc.
Qed.

(** X7: a number of parts that is zero or negative.  Zero is a division by
    zero, raised before the file is opened.  A negative number whose
    magnitude is below the size of the file gives a part size below -1,
    which the first read refuses: the file is opened and closed and nothing
    is sent. *)
Theorem upload_parts_bad_count mpu_id bucket_name object_name path total_parts w content :
  w_fs w !! path = Some content →
  (total_parts = 0 →
   upload_parts mpu_id bucket_name object_name path total_parts w
   = (Raise ZeroDivisionError, w)) ∧
  (total_parts < 0 → - total_parts < len content →
   upload_parts mpu_id bucket_name object_name path total_parts w
   = (Raise (ValueError "read length must be non-negative or -1"),
      emit (EClose path) (emit (EOpen path) w))).
Proof.
  intros Hpath. unfold S3.upload_parts. rewrite Hpath. split.
  - intros ->. done.
  - intros Hneg Hbig. destruct (decide (total_parts = 0)); [lia|].
    assert (len content `div` total_parts < -1) as Hp.
    { pose proof (Z.div_mod (len content) total_parts n) as Hdm.
      pose proof (Z.mod_neg_bound (len content) total_parts Hneg) as Hmod.
      nia. }
    rewrite upload_loop_unfold. unfold file_read.
    destruct (decide (len content `div` total_parts < -1)); [done | lia].
Qed.

(** A turn of the loop whose part the client refuses, and one whose answer
    has no [ETag]. *)
Lemma upload_chunk_refused mpu_id bucket_name object_name size data i parts ub w e st :
  s3_client (UploadPart data bucket_name object_name mpu_id (PyInt i)) (w_client w)
    = (Raise e, st) →
  upload_chunk mpu_id bucket_name object_name size data i parts ub w
  = (Raise e,
     {| w_fs := w_fs w; w_client := st;
        w_trace := w_trace w ++
          [ECall (UploadPart data bucket_name object_name mpu_id (PyInt i))] |}).
Proof.
  intros Hreq. unfold S3.upload_chunk, upload_part, request.
  rewrite kwargs_upload_id, kwargs_part_number.
  unfold mbind, M_bind. by rewrite Hreq.
Qed.

Lemma upload_chunk_tagless mpu_id bucket_name object_name size data i parts ub w resp st :
  s3_client (UploadPart data bucket_name object_name mpu_id (PyInt i)) (w_client w)
    = (Ok resp, st) →
  resp !! "ETag" = None →
  upload_chunk mpu_id bucket_name object_name size data i parts ub w
  = (Raise (KeyError "ETag"),
     {| w_fs := w_fs w; w_client := st;
        w_trace := w_trace w ++
          [ ECall (UploadPart data bucket_name object_name mpu_id (PyInt i));
            ELog RootLogger DEBUG (LogResponse "%s" resp);
            ELog ModuleLogger DEBUG (LogResponse "Part : %s" resp) ] |}).
Proof.
  intros Hreq Hetag. unfold S3.upload_chunk, upload_part, request, log, getitem.
  rewrite kwargs_upload_id, kwargs_part_number.
  unfold mbind, M_bind, mret, M_ret, mthrow, M_throw. rewrite Hreq.
  cbn [emit w_trace w_fs w_client]. rewrite Hetag.
  unfold emit. cbn [w_trace w_fs w_client]. by rewrite <- !app_assoc.
Qed.

(** The first chunk of a file with at least one byte per requested part. *)
Lemma first_chunk (content : list byte) (total_parts : Z) :
  1 ≤ total_parts ≤ len content →
  ∃ b data,
    file_read (len content `div` total_parts) content
    = Ok (b :: data, drop (Z.to_nat (len content `div` total_parts)) content) ∧
    b :: data = take (Z.to_nat (len content `div` total_parts)) content ∧
    len (b :: data) = len content `div` total_parts.
Proof.
  intros Hn.
  assert (1 ≤ len content `div` total_parts ≤ len content) as Hp.
  { split; [apply Z.div_le_lower_bound; lia|].
    apply Z.div_le_upper_bound; [lia|]. unfold len in *. nia. }
  unfold file_read.
  destruct (decide (len content `div` total_parts < -1)); [lia|].
  destruct (decide (len content `div` total_parts = -1)); [lia|].
  destruct (take (Z.to_nat (len content `div` total_parts)) content) as [|b data] eqn:Htake.
  - apply (f_equal length) in Htake. rewrite length_take in Htake.
    unfold len in *. simpl in Htake. lia.
  - exists b, data. split; [done|]. split; [done|].
    rewrite <- Htake. unfold len in *. rewrite length_take. lia.
Qed.

(** X8: when the client refuses the first part, [upload_parts] raises the
    client's exception as it is, having sent that one request and no
    other; the file is closed, nothing is retried and no part list is
    returned. *)
Theorem upload_parts_first_part_refused
    mpu_id bucket_name object_name path total_parts w content e st :
  1 ≤ total_parts ≤ len content →
  w_fs w !! path = Some content →
  s3_client
    (UploadPart (take (Z.to_nat (len content `div` total_parts)) content)
       bucket_name object_name mpu_id (PyInt 1)) (w_client w) = (Raise e, st) →
  upload_parts mpu_id bucket_name object_name path total_parts w
  = (Raise e,
     {| w_fs := w_fs w; w_client := st;
        w_trace := w_trace w ++
          [ EOpen path;
            ELog ModuleLogger INFO (LogDataLen (len content `div` total_parts));
            ECall (UploadPart (take (Z.to_nat (len content `div` total_parts)) content)
                     bucket_name object_name mpu_id (PyInt 1));
            EClose path ] |}).
Proof.
  intros Hn Hpath Hreq. unfold S3.upload_parts. rewrite Hpath.
  destruct (decide (total_parts = 0)); [lia|].
  destruct (first_chunk content total_parts Hn) as (b & data & Hread & Htake & Hlen).
  rewrite upload_loop_unfold, Hread. rewrite <- Htake in Hreq.
  rewrite (upload_chunk_refused _ _ _ _ _ _ _ _ _ e st) by exact Hreq.
  rewrite <- Htake, Hlen. unfold emit. cbn [w_trace w_fs w_client].
  by rewrite <- !app_assoc.
Qed.

(** X9: when the client's answer to the first part has no [ETag],
    [upload_parts] raises [KeyError], after the part has been uploaded and
    its answer logged; the file is closed and no part list is returned. *)
Theorem upload_parts_missing_etag
    mpu_id bucket_name object_name path total_parts w content resp st :
  1 ≤ total_parts ≤ len content →
  w_fs w !! path = Some content →
  s3_client
    (UploadPart (take (Z.to_nat (len content `div` total_parts)) content)
       bucket_name object_name mpu_id (PyInt 1)) (w_client w) = (Ok resp, st) →
  resp !! "ETag" = None →
  upload_parts mpu_id bucket_name object_name path total_parts w
  = (Raise (KeyError "ETag"),
     {| w_fs := w_fs w; w_client := st;
        w_trace := w_trace w ++
          [ EOpen path;
            ELog ModuleLogger INFO (LogDataLen (len content `div` total_parts));
            ECall (UploadPart (take (Z.to_nat (len content `div` total_parts)) content)
                     bucket_name object_name mpu_id (PyInt 1));
            ELog RootLogger DEBUG (LogResponse "%s" resp);
            ELog ModuleLogger DEBUG (LogResponse "Part : %s" resp);
            EClose path ] |}).
Proof.
  intros Hn Hpath Hreq Hetag. unfold S3.upload_parts. rewrite Hpath.
  destruct (decide (total_parts = 0)); [lia|].
  destruct (first_chunk content total_parts Hn) as (b & data & Hread & Htake & Hlen).
  rewrite upload_loop_unfold, Hread. rewrite <- Htake in Hreq.
  rewrite (upload_chunk_tagless _ _ _ _ _ _ _ _ _ resp st) by done.
  rewrite <- Htake, Hlen. unfold emit. cbn [w_trace w_fs w_client].
  by rewrite <- !app_assoc.
Qed.

(** Along a run, the count a progress observation reports is the running
    total of the bytes uploaded so far, and the parts recorded carry the
    tags of the client's answers, request after request. *)
Lemma run_totals_and_answers
    mpu_id bucket_name object_name size p fp i parts ub w parts' rest' w' :
  run mpu_id bucket_name object_name size p fp i parts ub w parts' rest' w' →
  ∃ new evs,
    parts' = parts ++ new ∧
    w_trace w' = w_trace w ++ evs ∧
    (λ o, o.1.1) <$> progress_of evs = running_totals ub (len <$> bodies_of evs) ∧
    Forall2 (λ part answer, ∃ resp, answer = Ok resp ∧ resp !! "ETag" = Some (ETag part))
      new (replay s3_client (calls_of evs) (w_client w)).1 ∧
    w_client w' = (replay s3_client (calls_of evs) (w_client w)).2.
Proof.
  induction 1 as [fp rest i parts ub w Hread
                 |fp b data rest i parts ub w resp st etag percent parts' rest' w'
                    Hread Hreq Hetag Hpct Hrun IH].
  - exists [], [ELog ModuleLogger INFO (LogDataLen 0)].
    rewrite app_nil_r. repeat split; try done.
  - destruct IH as (new & evs & -> & Htr & Hprog & Hanswers & Hclient).
    cbn [w_trace w_client] in Htr, Hanswers, Hclient.
    exists (Part i etag :: new),
      (chunk_events mpu_id bucket_name object_name size (b :: data) i ub resp percent ++ evs).
    split; [by rewrite <- app_assoc|].
    split; [by rewrite Htr, <- app_assoc|].
    rewrite progress_of_app, bodies_of_app, calls_of_app, !fmap_app.
    change (calls_of (chunk_events mpu_id bucket_name object_name size (b :: data) i ub
                        resp percent))
      with [UploadPart (b :: data) bucket_name object_name mpu_id (PyInt i)].
    cbn [app replay]. rewrite Hreq.
    destruct (replay s3_client (calls_of evs) st) as [answers st'] eqn:Hreplay.
    cbn [fst snd] in *.
    split; [|split; [|exact Hclient]].
    + rewrite Hprog. reflexivity.
    + constructor; [by exists resp | exact Hanswers].
Qed.

(** X10: the byte count of the k-th progress observation of [upload_parts]
    is the total length of the first k chunks uploaded: the counter never
    skips a chunk and never counts one twice. *)
Theorem upload_parts_progress_totals
    mpu_id bucket_name object_name path total_parts w parts w' :
  upload_parts mpu_id bucket_name object_name path total_parts w = (Ok parts, w') →
  ∃ evs,
    w_trace w' = w_trace w ++ evs ∧
    (λ o, o.1.1) <$> progress_of evs = running_totals 0 (len <$> bodies_of evs).
Proof.
  intros Hcall.
  apply upload_parts_ok in Hcall as (content & rest & wl & _ & _ & Hrun & ->).
  apply run_totals_and_answers in Hrun as (new & evs & _ & Htr & Hprog & _ & _).
  exists ([EOpen path] ++ evs ++ [EClose path; ELog ModuleLogger INFO (LogParts parts)]).
  split.
  - cbn [emit w_trace] in *. rewrite Htr. by rewrite <- !app_assoc.
  - rewrite !progress_of_app, !bodies_of_app.
    change (progress_of [EOpen path]) with (@nil (Z * Z * Q)).
    change (bodies_of [EOpen path]) with (@nil (list byte)).
    change (progress_of [EClose path; ELog ModuleLogger INFO (LogParts parts)])
      with (@nil (Z * Z * Q)).
    change (bodies_of [EClose path; ELog ModuleLogger INFO (LogParts parts)])
      with (@nil (list byte)).
    cbn [app]. rewrite !app_nil_r. exact Hprog.
Qed.

(** X11: the part list [upload_parts] returns is the record of what the
    client answered: sending the requests of the call to the client once
    more, from the state the call found it in, gives one answer per
    returned part, in order, each a response whose [ETag] is the tag
    recorded for the part; and the call leaves the client in the state
    those requests lead to. *)
Theorem upload_parts_records_answers
    mpu_id bucket_name object_name path total_parts w parts w' :
  upload_parts mpu_id bucket_name object_name path total_parts w = (Ok parts, w') →
  ∃ evs,
    w_trace w' = w_trace w ++ evs ∧
    Forall2 (λ part answer, ∃ resp, answer = Ok resp ∧ resp !! "ETag" = Some (ETag part))
      parts (replay s3_client (calls_of evs) (w_client w)).1 ∧
    w_client w' = (replay s3_client (calls_of evs) (w_client w)).2.
Proof.
  intros Hcall.
  apply upload_parts_ok in Hcall as (content & rest & wl & _ & _ & Hrun & ->).
  apply run_totals_and_answers in Hrun as (new & evs & Hnew & Htr & _ & Hanswers & Hclient).
  simpl in Hnew. subst new.
  exists ([EOpen path] ++ evs ++ [EClose path; ELog ModuleLogger INFO (LogParts parts)]).
  assert (calls_of ([EOpen path] ++ evs ++
            [EClose path; ELog ModuleLogger INFO (LogParts parts)]) = calls_of evs) as ->.
  { rewrite !calls_of_app. cbn [calls_of app]. by rewrite app_nil_r. }
  cbn [emit w_trace w_client] in *.
  split; [rewrite Htr; by rewrite <- !app_assoc|]. done.
Qed.

(** A turn of the loop whose part the client accepts with an [ETag]. *)
Lemma upload_chunk_accepted
    mpu_id bucket_name object_name size data i parts ub w resp st etag :
  s3_client (UploadPart data bucket_name object_name mpu_id (PyInt i)) (w_client w)
    = (Ok resp, st) →
  resp !! "ETag" = Some etag →
  size ≠ 0 →
  ∃ percent,
    upload_chunk mpu_id bucket_name object_name size data i parts ub
      (emit (ELog ModuleLogger INFO (LogDataLen (len data))) w)
    = (Ok (parts ++ [Part i etag], ub + len data),
       {| w_fs := w_fs w; w_client := st;
          w_trace := w_trace w ++
            chunk_events mpu_id bucket_name object_name size data i ub resp percent |}).
Proof.
  intros Hreq Hetag Hsize.
  unfold S3.upload_chunk, upload_part, request, log, getitem, lift.
  rewrite kwargs_upload_id, kwargs_part_number.
  unfold mbind, M_bind, mret, M_ret, mthrow, M_throw.
  cbn [emit w_trace w_fs w_client]. rewrite Hreq.
  cbn [emit w_trace w_fs w_client]. rewrite Hetag.
  unfold cal_percent. destruct (decide (size * 1048576 = 0)); [lia|].
  eexists. unfold emit, chunk_events. cbn [w_trace w_fs w_client].
  rewrite <- !app_assoc. reflexivity.
Qed.

(** X12: a negative [total_parts] whose magnitude is at least the size of a
    non-empty file gives a part size of -1, and a read of -1 bytes reads to
    the end: the whole file goes up as the single part 1. *)
Theorem upload_parts_negative_count_one_part
    mpu_id bucket_name object_name path total_parts w content resp st etag :
  w_fs w !! path = Some content →
  content ≠ [] →
  total_parts < 0 → len content ≤ - total_parts →
  s3_client (UploadPart content bucket_name object_name mpu_id (PyInt 1)) (w_client w)
    = (Ok resp, st) →
  resp !! "ETag" = Some etag →
  ∃ w' evs,
    upload_parts mpu_id bucket_name object_name path total_parts w = (Ok [Part 1 etag], w') ∧
    w_client w' = st ∧
    w_trace w' = w_trace w ++ evs ∧
    calls_of evs = [UploadPart content bucket_name object_name mpu_id (PyInt 1)].
Proof.
  intros Hpath Hne Hneg Hsmall Hreq Hetag.
  assert (0 < len content) as Hpos
    by (destruct content; [done | unfold len; simpl; lia]).
  assert (len content `div` total_parts = -1) as Hp.
  { assert (total_parts ≠ 0) as Hnz by lia.
    pose proof (Z.div_mod (len content) total_parts Hnz) as Hdm.
    pose proof (Z.mod_neg_bound (len content) total_parts Hneg) as Hmod.
    nia. }
  unfold S3.upload_parts. rewrite Hpath.
  destruct (decide (total_parts = 0)); [lia|]. rewrite Hp.
  rewrite upload_loop_unfold.
  change (file_read (-1) content) with (Ok (content, @nil byte)).
  destruct content as [|b data]; [done|].
  destruct (upload_chunk_accepted mpu_id bucket_name object_name (len (b :: data))
              (b :: data) 1 [] 0 (emit (EOpen path) w) resp st etag)
    as [percent ->]; [done | done | lia |].
  rewrite upload_loop_unfold.
  change (file_read (-1) []) with (Ok (@nil byte, @nil byte)).
  unfold mbind, M_bind, log, mret, M_ret, emit. cbn [w_trace w_fs w_client app].
  eexists _, _. split; [reflexivity|]. cbn [w_trace w_client].
  split; [reflexivity|]. split; [by rewrite <- !app_assoc|].
  reflexivity.
Qed.

(** X13: [upload_parts] followed by [complete_multipart_upload] on the list
    it returned.  The completion request is the last request sent and
    carries that very list, whose part numbers run from 1 without a gap;
    before it come the uploads, one per part; and the outcome of the whole
    is the client's outcome for the completion request. *)
Theorem upload_then_complete mpu_id bucket_name object_name path total_parts w parts w1 :
  upload_parts (PyStr mpu_id) bucket_name object_name path total_parts w = (Ok parts, w1) →
  PartNumber <$> parts = seqZ 1 (len parts) ∧
  ∃ w2 uploads evs,
    (parts ← upload_parts (PyStr mpu_id) bucket_name object_name path total_parts;
     complete_multipart_upload s3_client mpu_id parts bucket_name object_name) w
    = ((s3_client (CompleteMultipartUpload bucket_name object_name mpu_id parts)
          (w_client w1)).1, w2) ∧
    w_trace w2 = w_trace w ++ evs ∧
    calls_of evs
    = uploads ++ [CompleteMultipartUpload bucket_name object_name mpu_id parts] ∧
    part_number_of_call <$> uploads = (λ part, Some (PyInt (PartNumber part))) <$> parts.
Proof.
  intros Hcall.
  pose proof (upload_parts_ok _ _ _ _ _ _ _ _ _ Hcall)
    as (content & rest & wl & _ & _ & Hrun & Hw1).
  apply run_summary in Hrun as (new & evs & Hnew & Htr & _ & Hnum & Hcalls & _ & _ & _).
  simpl in Hnew. subst new.
  split; [by apply fmap_seqZ_lookup|].
  unfold mbind at 1. unfold M_bind at 1. rewrite Hcall.
  unfold complete_multipart_upload, request, log, mbind, M_bind, mret, M_ret, emit.
  cbn [w_trace w_fs w_client].
  destruct (s3_client _ (w_client w1)) as [[resp|e] st];
    eexists _, (calls_of evs), _; (split; [reflexivity|]); cbn [w_trace];
    subst w1; cbn [emit w_trace] in *; rewrite Htr;
    (split; [rewrite <- !app_assoc; reflexivity|]);
    (split; [|exact Hcalls]);
    rewrite !calls_of_app; cbn [calls_of app]; by rewrite ?app_nil_r.
Qed.

End Client.

(** The calls the theorems above are run on: a file of [size] zero bytes
    at "/data/obj", asked for in [n] parts, against [client]. *)
Local Abbreviation call client n size :=
  (upload_parts client (PyStr "upload-1") "bucket" "key" "/data/obj" n
     (one_file "/data/obj" size)).

(** Ten bytes in three parts: the chunks add up to the file. *)
Lemma upload_parts_splits_file_witness :
  ∃ evs,
    w_trace (call accepting_client 3 10).2 = w_trace (one_file "/data/obj" 10) ++ evs ∧
    concat (bodies_of evs) = repeat Byte.x00 10 ∧
    length (bodies_of evs) = 4%nat.
Proof.
  assert (call accepting_client 3 10
          = (Ok [Part 1 (PyInt 1); Part 2 (PyInt 2); Part 3 (PyInt 3); Part 4 (PyInt 4)],
             (call accepting_client 3 10).2)) as Hcall by (vm_compute; reflexivity).
  destruct (upload_parts_splits_file accepting_client (PyStr "upload-1") "bucket" "key"
              "/data/obj" 3 (one_file "/data/obj" 10) (repeat Byte.x00 10)
              [Part 1 (PyInt 1); Part 2 (PyInt 2); Part 3 (PyInt 3); Part 4 (PyInt 4)]
              (call accepting_client 3 10).2)
    as (evs & Htr & Hcat & Hlen & _).
  { vm_compute. split; discriminate. }
  { reflexivity. }
  { exact Hcall. }
  exists evs. split; [exact Htr|]. split; [exact Hcat|]. by rewrite <- Hlen.
Defined.

(** Twelve bytes in three parts: three parts of four bytes. *)
Lemma upload_parts_even_split_witness :
  length [Part 1 (PyInt 1); Part 2 (PyInt 2); Part 3 (PyInt 3)] = Z.to_nat 3 ∧
  ∃ evs,
    w_trace (call accepting_client 3 12).2 = w_trace (one_file "/data/obj" 12) ++ evs ∧
    length (bodies_of evs) = Z.to_nat 3 ∧
    Forall (λ body, len body = 4) (bodies_of evs) ∧
    concat (bodies_of evs) = repeat Byte.x00 12.
Proof.
  apply (upload_parts_even_split accepting_client (PyStr "upload-1") "bucket" "key"
           "/data/obj" 3 4 (one_file "/data/obj" 12) (repeat Byte.x00 12)).
  - lia.
  - lia.
  - reflexivity.
  - reflexivity.
  - vm_compute. reflexivity.
Defined.

(** On the refusing service the one request sent is still an upload. *)
Lemma upload_parts_only_uploads_witness :
  w_fs (call refusing_client 2 4).2 = w_fs (one_file "/data/obj" 4) ∧
  ∃ evs,
    w_trace (call refusing_client 2 4).2 = w_trace (one_file "/data/obj" 4) ++ evs ∧
    Forall (is_upload_to "bucket" "key" (PyStr "upload-1")) (calls_of evs).
Proof.
  apply (upload_parts_only_uploads refusing_client (PyStr "upload-1") "bucket" "key"
           "/data/obj" 2 (one_file "/data/obj" 4) (call refusing_client 2 4).1).
  apply surjective_pairing.
Defined.

(** On the refusing service the file is opened and closed all the same. *)
Lemma upload_parts_closes_file_witness :
  ∃ evs,
    file_events evs = [] ∧
    w_trace (call refusing_client 2 4).2
    = w_trace (one_file "/data/obj" 4) ++ [EOpen "/data/obj"] ++ evs ++
        [EClose "/data/obj"] ++ [].
Proof.
  apply (upload_parts_closes_file refusing_client (PyStr "upload-1") "bucket" "key"
           "/data/obj" 2 (one_file "/data/obj" 4) (repeat Byte.x00 4)
           (Raise (ClientError "AccessDenied"))).
  - reflexivity.
  - discriminate.
  - vm_compute. reflexivity.
Defined.

(** On the service that answers without [ETag] the cause is the fourth. *)
Lemma upload_parts_failure_causes_witness :
  ∃ evs c st,
    w_trace (call tagless_client 2 4).2 = w_trace (one_file "/data/obj" 4) ++ evs ∧
    last (calls_of evs) = Some c ∧
    is_upload_to "bucket" "key" (PyStr "upload-1") c ∧
    w_client (call tagless_client 2 4).2 = (tagless_client c st).2.
Proof.
  destruct (upload_parts_failure_causes tagless_client (PyStr "upload-1") "bucket" "key"
              "/data/obj" 2 (one_file "/data/obj" 4) (KeyError "ETag")
              (call tagless_client 2 4).2)
    as [(Hnone & _)|[(_ & Hzero & _)|[(Hneg & _)|(evs & c & st & Htr & Hlast & Hup & Hcl & _)]]].
  - vm_compute. reflexivity.
  - discriminate Hnone.
  - discriminate Hzero.
  - discriminate Hneg.
  - by exists evs, c, st.
Defined.

(** A disk with an empty file. *)
Lemma upload_parts_empty_file_witness :
  call accepting_client 3 0
  = (Ok [],
     {| w_fs := w_fs (one_file "/data/obj" 0); w_client := 0%nat;
        w_trace := [ EOpen "/data/obj"; ELog ModuleLogger INFO (LogDataLen 0);
                     EClose "/data/obj"; ELog ModuleLogger INFO (LogParts []) ] |}).
Proof.
  apply (upload_parts_empty_file accepting_client (PyStr "upload-1") "bucket" "key"
           "/data/obj" 3 (one_file "/data/obj" 0)).
  - reflexivity.
  - discriminate.
Defined.

(** Ten bytes asked for in zero parts, and in minus three parts. *)
Lemma upload_parts_bad_count_witness :
  call accepting_client 0 10 = (Raise ZeroDivisionError, one_file "/data/obj" 10) ∧
  call accepting_client (-3) 10
  = (Raise (ValueError "read length must be non-negative or -1"),
     emit (EClose "/data/obj") (emit (EOpen "/data/obj") (one_file "/data/obj" 10))).
Proof.
  split.
  - apply (proj1 (upload_parts_bad_count accepting_client (PyStr "upload-1") "bucket" "key"
                    "/data/obj" 0 (one_file "/data/obj" 10) (repeat Byte.x00 10) eq_refl)).
    reflexivity.
  - apply (proj2 (upload_parts_bad_count accepting_client (PyStr "upload-1") "bucket" "key"
                    "/data/obj" (-3) (one_file "/data/obj" 10) (repeat Byte.x00 10) eq_refl)).
    + reflexivity.
    + reflexivity.
Defined.

(** Three bytes asked for in minus five parts: one part of three bytes. *)
Lemma upload_parts_negative_count_one_part_witness :
  ∃ w' evs,
    call accepting_client (-5) 3 = (Ok [Part 1 (PyInt 1)], w') ∧
    w_client w' = 1%nat ∧
    w_trace w' = w_trace (one_file "/data/obj" 3) ++ evs ∧
    calls_of evs
    = [UploadPart (repeat Byte.x00 3) "bucket" "key" (PyStr "upload-1") (PyInt 1)].
Proof.
  apply (upload_parts_negative_count_one_part accepting_client (PyStr "upload-1") "bucket"
           "key" "/data/obj" (-5) (one_file "/data/obj" 3) (repeat Byte.x00 3)
           (<["ETag" := PyInt 1]> ∅)).
  - reflexivity.
  - discriminate.
  - reflexivity.
  - discriminate.
  - reflexivity.
  - reflexivity.
Defined.

(** Four bytes in two parts on the refusing service. *)
Lemma upload_parts_first_part_refused_witness :
  call refusing_client 2 4
  = (Raise (ClientError "AccessDenied"),
     {| w_fs := w_fs (one_file "/data/obj" 4); w_client := 1%nat;
        w_trace := w_trace (one_file "/data/obj" 4) ++
          [ EOpen "/data/obj";
            ELog ModuleLogger INFO (LogDataLen (len (repeat Byte.x00 4) `div` 2));
            ECall (UploadPart
                     (take (Z.to_nat (len (repeat Byte.x00 4) `div` 2)) (repeat Byte.x00 4))
                     "bucket" "key" (PyStr "upload-1") (PyInt 1));
            EClose "/data/obj" ] |}).
Proof.
  apply (upload_parts_first_part_refused refusing_client (PyStr "upload-1") "bucket" "key"
           "/data/obj" 2 (one_file "/data/obj" 4) (repeat Byte.x00 4)).
  - vm_compute. split; discriminate.
  - reflexivity.
  - reflexivity.
Defined.

(** Four bytes in two parts on the service that answers without [ETag]. *)
Lemma upload_parts_missing_etag_witness :
  call tagless_client 2 4
  = (Raise (KeyError "ETag"),
     {| w_fs := w_fs (one_file "/data/obj" 4); w_client := 1%nat;
        w_trace := w_trace (one_file "/data/obj" 4) ++
          [ EOpen "/data/obj";
            ELog ModuleLogger INFO (LogDataLen (len (repeat Byte.x00 4) `div` 2));
            ECall (UploadPart
                     (take (Z.to_nat (len (repeat Byte.x00 4) `div` 2)) (repeat Byte.x00 4))
                     "bucket" "key" (PyStr "upload-1") (PyInt 1));
            ELog RootLogger DEBUG (LogResponse "%s" ∅);
            ELog ModuleLogger DEBUG (LogResponse "Part : %s" ∅);
            EClose "/data/obj" ] |}).
Proof.
  apply (upload_parts_missing_etag tagless_client (PyStr "upload-1") "bucket" "key"
           "/data/obj" 2 (one_file "/data/obj" 4) (repeat Byte.x00 4)).
  - vm_compute. split; discriminate.
  - reflexivity.
  - reflexivity.
  - reflexivity.
Defined.

(** Ten bytes in three parts: the counts reported are 3, 6, 9 and 10. *)
Lemma upload_parts_progress_totals_witness :
  ∃ evs,
    w_trace (call accepting_client 3 10).2 = w_trace (one_file "/data/obj" 10) ++ evs ∧
    (λ o, o.1.1) <$> progress_of evs = running_totals 0 (len <$> bodies_of evs).
Proof.
  apply (upload_parts_progress_totals accepting_client (PyStr "upload-1") "bucket" "key"
           "/data/obj" 3 (one_file "/data/obj" 10)
           [Part 1 (PyInt 1); Part 2 (PyInt 2); Part 3 (PyInt 3); Part 4 (PyInt 4)]).
  vm_compute. reflexivity.
Defined.

(** Four bytes in two parts on the accepting service. *)
Lemma upload_parts_records_answers_witness :
  ∃ evs,
    w_trace (call accepting_client 2 4).2 = w_trace (one_file "/data/obj" 4) ++ evs ∧
    Forall2 (λ part answer, ∃ resp, answer = Ok resp ∧ resp !! "ETag" = Some (ETag part))
      [Part 1 (PyInt 1); Part 2 (PyInt 2)]
      (replay accepting_client (calls_of evs) 0%nat).1 ∧
    w_client (call accepting_client 2 4).2 = (replay accepting_client (calls_of evs) 0%nat).2.
Proof.
  apply (upload_parts_records_answers accepting_client (PyStr "upload-1") "bucket" "key"
           "/data/obj" 2 (one_file "/data/obj" 4)).
  vm_compute. reflexivity.
Defined.

(** Four bytes in two parts, then the completion. *)
Lemma upload_then_complete_witness :
  PartNumber <$> [Part 1 (PyInt 1); Part 2 (PyInt 2)] = seqZ 1 2 ∧
  ∃ w2 uploads evs,
    (parts ← upload_parts accepting_client (PyStr "upload-1") "bucket" "key" "/data/obj" 2;
     complete_multipart_upload accepting_client "upload-1" parts "bucket" "key")
      (one_file "/data/obj" 4)
    = ((accepting_client
          (CompleteMultipartUpload "bucket" "key" "upload-1"
             [Part 1 (PyInt 1); Part 2 (PyInt 2)])
          (w_client (call accepting_client 2 4).2)).1, w2) ∧
    w_trace w2 = w_trace (one_file "/data/obj" 4) ++ evs ∧
    calls_of evs
    = uploads ++ [CompleteMultipartUpload "bucket" "key" "upload-1"
                    [Part 1 (PyInt 1); Part 2 (PyInt 2)]] ∧
    part_number_of_call <$> uploads
    = (λ part, Some (PyInt (PartNumber part))) <$> [Part 1 (PyInt 1); Part 2 (PyInt 2)].
Proof.
  apply (upload_then_complete accepting_client "upload-1" "bucket" "key" "/data/obj" 2
           (one_file "/data/obj" 4) [Part 1 (PyInt 1); Part 2 (PyInt 2)]
           (call accepting_client 2 4).2).
  vm_compute. reflexivity.
Defined.

End S3Extra.

(** ** More on the run managers: the life of a worker *)

Module DiExtra.
Import Di DiFacts.

Section Collaborators.

Context {pyobj ext_state : Type}.
Variable uploader_start : pyobj → call_shape pyobj → ext_state → result unit * ext_state.
Variable uploader_stop : pyobj → ext_state → result unit * ext_state.
Variable verify_data_integrity : ext_state → result unit * ext_state.

Implicit Types (w : world (pyobj := pyobj) (ext_state := ext_state)).

Local Abbreviation thread_join := (Di.thread_join uploader_start).
Local Abbreviation stop_io_async := (Di.stop_io_async uploader_start verify_data_integrity).
Local Abbreviation start_io := (Di.start_io uploader_start).
Local Abbreviation stop_io := (Di.stop_io uploader_stop verify_data_integrity).

Lemma alter_last {A} (f : A → A) (l : list A) (x : A) :
  alter f (length l) (l ++ [x]) = l ++ [f x].
Proof. rewrite alter_app_r_alt by done. by rewrite Nat.sub_diag. Qed.

Local Abbreviation verified := (Di.verified verify_data_integrity).

Lemma external_verify w : external EVerify verify_data_integrity w = verified w.
Proof. unfold external, Di.verified. by destruct (verify_data_integrity (w_ext w)). Qed.

(** [start_io_async] on a manager that has an uploader, as an equation. *)
Lemma start_io_async_eq (users buckets : pyobj) w u :
  uploader (w_self w) = Some u →
  start_io_async users buckets w
  = (Ok tt,
     {| w_self := set_bg_thread (Some (length (w_threads w))) (w_self w);
        w_ext := w_ext w;
        w_threads := w_threads w ++ [Thread u users Started];
        w_trace := w_trace w ++ [EThreadStart (length (w_threads w))] |}).
Proof.
  intros Hu.
  unfold start_io_async, get_uploader, thread_new, set_self, get_bg_thread, thread_start,
    mbind, M_bind.
  rewrite Hu. cbn [w_self w_threads w_ext w_trace bg_thread set_bg_thread].
  rewrite list_lookup_middle by done. cbn [t_status].
  unfold emit, set_status. cbn [w_self w_threads w_ext w_trace t_target t_args].
  by rewrite alter_last.
Qed.

(** [stop_io_async] on a manager whose worker has already terminated: the
    join returns at once and the workload is not run again. *)
Lemma stop_io_async_terminated (di_check : bool) w t :
  bg_thread (w_self w) = Some t →
  terminated w t →
  stop_io_async di_check w
  = if di_check then verified (emit (EThreadJoin t None) w)
    else (Ok tt, emit (EThreadJoin t None) w).
Proof.
  intros Hbg (th & outcome & Hth & Hst).
  unfold Di.stop_io_async, get_bg_thread, Di.thread_join, mbind, M_bind.
  rewrite Hbg, Hth, Hst. destruct di_check; [apply external_verify | done].
Qed.

(** [stop_io_async] on a manager whose handle is on the thread created
    last, which is running: the join runs the workload to its end. *)
Lemma stop_io_async_running (di_check : bool) (self : ASyncIO) ext threads trace u users :
  bg_thread self = Some (length threads) →
  stop_io_async di_check
    {| w_self := self; w_ext := ext;
       w_threads := threads ++ [Thread u users Started]; w_trace := trace |}
  = let work := uploader_start u (Star users) ext in
    let wj := {| w_self := self; w_ext := work.2;
                 w_threads := threads ++ [Thread u users (Stopped work.1)];
                 w_trace := trace ++ [EThreadJoin (length threads) None] |} in
    if di_check then verified wj else (Ok tt, wj).
Proof.
  intros Hbg.
  unfold Di.stop_io_async, get_bg_thread, Di.thread_join, mbind, M_bind.
  cbn [w_self w_threads w_ext w_trace]. rewrite Hbg.
  cbn [w_self w_threads w_ext w_trace].
  rewrite list_lookup_middle by done. cbn [t_status t_target t_args].
  destruct (uploader_start u (Star users) ext) as [outcome st].
  unfold emit, set_status. cbn [w_self w_threads w_ext w_trace t_target t_args fst snd].
  rewrite alter_last. cbn [t_target t_args].
  destruct di_check; [apply external_verify | done].
Qed.

(** X14: [start_io_async] followed by [stop_io_async].  The workload is the
    uploader's [start], called once, with the [users] given to
    [start_io_async] unpacked as its arguments ([buckets] plays no part);
    its outcome stays with the thread and is never the outcome of the
    pair, which is [Ok] without verification and the verifier's outcome
    with it; verification comes after the join. *)
Theorem start_then_stop (users buckets : pyobj) (di_check : bool) w u :
  uploader (w_self w) = Some u →
  let t := length (w_threads w) in
  let work := uploader_start u (Star users) (w_ext w) in
  let wj :=
    {| w_self := set_bg_thread (Some t) (w_self w);
       w_ext := work.2;
       w_threads := w_threads w ++ [Thread u users (Stopped work.1)];
       w_trace := w_trace w ++ [EThreadStart t; EThreadJoin t None] |} in
  (start_io_async users buckets;; stop_io_async di_check) w
  = if di_check then verified wj else (Ok tt, wj).
Proof.
  intros Hu t work wj.
  unfold mbind at 1. unfold M_bind at 1. rewrite (start_io_async_eq _ _ _ _ Hu).
  rewrite stop_io_async_running by done. cbn zeta. fold work t.
  assert ({| w_self := set_bg_thread (Some t) (w_self w);
             w_ext := work.2;
             w_threads := w_threads w ++ [Thread u users (Stopped work.1)];
             w_trace := (w_trace w ++ [EThreadStart t]) ++ [EThreadJoin t None] |} = wj)
    as ->; [|done].
  unfold wj. by rewrite <- app_assoc.
Qed.

(** X15: [stop_io_async] a second time.  The handle on the worker is kept
    after the first call, so a second call joins the same, terminated,
    thread: the workload is not run again, and with [di_check] the
    verification is run once more. *)
Theorem stop_io_async_twice (d1 d2 : bool) w t w1 :
  bg_thread (w_self w) = Some t →
  started w t →
  stop_io_async d1 w = (Ok tt, w1) →
  bg_thread (w_self w1) = Some t ∧
  w_threads (stop_io_async d2 w1).2 = w_threads w1 ∧
  stop_io_async d2 w1
  = if d2 then verified (emit (EThreadJoin t None) w1)
    else (Ok tt, emit (EThreadJoin t None) w1).
Proof.
  intros Hbg Hstarted Hstop.
  destruct (thread_join_terminates uploader_start w t Hstarted)
    as (wj & Hjoin & Hterm & Hself & _).
  unfold Di.stop_io_async, get_bg_thread, mbind, M_bind in Hstop.
  rewrite Hbg, Hjoin in Hstop.
  assert (w_self w1 = w_self wj ∧ w_threads w1 = w_threads wj) as [Hs Ht].
  { destruct d1.
    - rewrite external_verify in Hstop. by injection Hstop as _ <-.
    - by injection Hstop as <-. }
  assert (bg_thread (w_self w1) = Some t) as Hbg1 by (by rewrite Hs, Hself).
  assert (terminated w1 t) as Hterm1.
  { destruct Hterm as (th & outcome & Hth & Hst). exists th, outcome. by rewrite Ht. }
  rewrite (stop_io_async_terminated _ _ _ Hbg1 Hterm1).
  split; [exact Hbg1|]. split; [by destruct d2|done].
Qed.

(** X17: the synchronous pair [start_io], [stop_io].  The workload runs in
    the caller: [start_io] calls the uploader's [start] with [users] as its
    one argument and raises what it raises, and then neither [stop] nor the
    verification is reached; a failing [stop] likewise skips the
    verification; otherwise the verification runs when [di_check] is set
    and its outcome is the outcome of the pair. *)
Theorem start_io_then_stop_io (users buckets : pyobj) (di_check : bool) w u :
  uploader (w_self w) = Some u →
  (start_io users buckets;; stop_io di_check) w
  = let work := uploader_start u (One users) (w_ext w) in
    let w1 := {| w_self := w_self w; w_ext := work.2; w_threads := w_threads w;
                 w_trace := w_trace w ++ [EUploaderStart] |} in
    match work.1 with
    | Raise e => (Raise e, w1)
    | Ok _ =>
        let halt := uploader_stop u work.2 in
        let w2 := {| w_self := w_self w; w_ext := halt.2; w_threads := w_threads w;
                     w_trace := w_trace w ++ [EUploaderStart; EUploaderStop] |} in
        match halt.1 with
        | Raise e => (Raise e, w2)
        | Ok _ => if di_check then verified w2 else (Ok tt, w2)
        end
    end.
Proof.
  intros Hu.
  unfold Di.start_io, Di.stop_io, get_uploader, external, mbind, M_bind. rewrite Hu.
  destruct (uploader_start u (One users) (w_ext w)) as [[[]|e] st]; cbn [fst snd]; [|done].
  cbn [w_self w_ext w_threads w_trace]. rewrite Hu.
  cbn [w_self w_ext w_threads w_trace].
  destruct (uploader_stop u st) as [[[]|e] st']; cbn [fst snd];
    rewrite <- !app_assoc; cbn [app]; [|done].
  destruct di_check; [|done].
  unfold Di.verified. cbn [w_self w_ext w_threads w_trace].
  by destruct (verify_data_integrity st').
Qed.

(** X18: a manager that has only been through [ASyncIO.__init__] cannot be
    stopped: [__init__] sets [bg_thread] to [None], so [stop_io_async]
    raises an [AttributeError] before it joins or verifies anything. *)
Theorem init_then_stop (upload_cls users : pyobj) (di_check : bool) w :
  (call_ASyncIO___init__ [upload_cls; users] [];; stop_io_async di_check) w
  = (Raise (AttributeError "'NoneType' object has no attribute 'join'"),
     {| w_self := {| uploader := Some upload_cls; users := Some users; bg_thread := None |};
        w_ext := w_ext w; w_threads := w_threads w; w_trace := w_trace w |}).
Proof.
  unfold mbind at 1. unfold M_bind at 1.
  assert (call_ASyncIO___init__ [upload_cls; users] [] w
          = (Ok tt,
             {| w_self := {| uploader := Some upload_cls; users := Some users;
                             bg_thread := None |};
                w_ext := w_ext w; w_threads := w_threads w; w_trace := w_trace w |})) as ->.
  { unfold call_ASyncIO___init__, lift, mbind, M_bind.
    assert (bind_arguments "__init__" ASyncIO___init___params [upload_cls; users] []
            = Ok (<["upload_cls" := upload_cls]> (<["users" := users]> ∅))) as -> by done.
    rewrite lookup_insert_eq, lookup_insert_ne, lookup_insert_eq by done.
    reflexivity. }
  by apply stop_io_async_without_worker.
Qed.

End Collaborators.

(** The fresh manager, started and stopped with a failing workload and a
    failing verifier: without verification the pair returns normally. *)
Lemma start_then_stop_witness :
  (start_io_async "users" "buckets";;
   stop_io_async failing_workload failing_verifier false) fresh_manager
  = (Ok tt,
     {| w_self := set_bg_thread (Some 0%nat) (w_self fresh_manager);
        w_ext := ["start"];
        w_threads := [Thread "uploader" "users" (Stopped (Raise (Foreign "upload failed")))];
        w_trace := [EThreadStart 0; EThreadJoin 0 None] |}).
Proof.
  exact (start_then_stop failing_workload failing_verifier "users" "buckets" false
           fresh_manager "uploader" eq_refl).
Defined.

(** The running manager, stopped twice. *)
Lemma stop_io_async_twice_witness :
  bg_thread (w_self stopped_manager) = Some 0%nat ∧
  w_threads (stop_io_async failing_workload failing_verifier true stopped_manager).2
  = w_threads stopped_manager ∧
  stop_io_async failing_workload failing_verifier true stopped_manager
  = verified failing_verifier (emit (EThreadJoin 0 None) stopped_manager).
Proof.
  apply (stop_io_async_twice failing_workload failing_verifier false true
           running_manager 0%nat stopped_manager).
  - reflexivity.
  - eexists. split; [reflexivity | discriminate].
  - reflexivity.
Defined.

(** The synchronous pair on the fresh manager, with the failing workload:
    [start_io] raises and nothing else is reached. *)
Lemma start_io_then_stop_io_witness :
  (start_io failing_workload "users" "buckets";;
   stop_io stopping_uploader failing_verifier true) fresh_manager
  = (Raise (Foreign "upload failed"),
     {| w_self := w_self fresh_manager; w_ext := ["start"]; w_threads := [];
        w_trace := [EUploaderStart] |}).
Proof.
  exact (start_io_then_stop_io failing_workload stopping_uploader failing_verifier
           "users" "buckets" true fresh_manager "uploader" eq_refl).
Defined.

End DiExtra.
